(** * MS5611 barometric sensor driver: model of ms5611.c and its properties

    The driver is embedded function by function, under the source's names.

    - C integers are [Z], with the conversions of the C types written out.
    - [float] and [double] are IEEE 754 binary32 and binary64 values
      ([SpecFloat.spec_float]), rounded to nearest even; every operation is
      evaluated in the format of its C type (FLT_EVAL_METHOD 0, no fused
      multiply-add), a floating constant without suffix is the [double]
      nearest to its decimal writing, and an integer operand of a floating
      operation is converted first.
    - The bus primitives held by the device handle are an oracle over the
      history of bus events; every call is appended to the history.
    - Where C leaves the behaviour undefined (a floating value converted to
      an [int32_t] that cannot hold it, [int] overflow) the result is
      [None]. *)

From Stdlib Require Import ZArith List Bool Lia.
From Stdlib Require Import Floats.SpecFloat.
From Stdlib Require Import Strings.Byte.
Import ListNotations.
Local Open Scope Z_scope.

(** ** Undefined behaviour as a partial result *)

Definition obind {A B : Type} (c : option A) (k : A -> option B) : option B :=
  match c with
  | Some a => k a
  | None => None
  end.

Notation "x <- c1 ;; c2" := (obind c1 (fun x => c2))
  (at level 61, c1 at next level, right associativity).
Notation "' pat <- c1 ;; c2" := (obind c1 (fun x => match x with pat => c2 end))
  (at level 61, pat pattern, c1 at next level, right associativity).

(** ** C integer types *)

Definition INT32_MIN : Z := -2147483648.
Definition INT32_MAX : Z := 2147483647.

Definition in_int32 (z : Z) : bool := (INT32_MIN <=? z) && (z <=? INT32_MAX).

(** [int] arithmetic: a result outside the type is undefined. *)
Definition int32_checked (z : Z) : option Z :=
  if in_int32 z then Some z else None.

Definition int32_add (a b : Z) : option Z := int32_checked (a + b).
Definition int32_sub (a b : Z) : option Z := int32_checked (a - b).
Definition int32_mul (a b : Z) : option Z := int32_checked (a * b).

(** Conversions to the unsigned and signed 8-bit and unsigned 16-bit types. *)
Definition to_uint8 (z : Z) : Z := z mod 256.
Definition to_uint16 (z : Z) : Z := z mod 65536.
Definition to_int8 (z : Z) : Z := (z + 128) mod 256 - 128.

Definition byte_val (b : byte) : Z := Z.of_N (Byte.to_N b).

(** ** IEEE 754 binary32 ([float]) and binary64 ([double]) *)

Definition float := spec_float.

Module F32.
Definition prec : Z := 24.
Definition emax : Z := 128.
Definition add : float -> float -> float := SFadd prec emax.
Definition sub : float -> float -> float := SFsub prec emax.
Definition mul : float -> float -> float := SFmul prec emax.
Definition div : float -> float -> float := SFdiv prec emax.
(** Conversion of an integer value, rounded when it has more than 24
    significant bits. *)
Definition of_Z (z : Z) : float := binary_normalize prec emax z 0 false.
(** Narrowing of a [double]. *)
Definition of_double (x : float) : float :=
  match x with
  | S754_finite s m e => binary_normalize prec emax (cond_Zopp s (Zpos m)) e s
  | _ => x
  end.
End F32.

Module F64.
Definition prec : Z := 53.
Definition emax : Z := 1024.
Definition add : float -> float -> float := SFadd prec emax.
Definition sub : float -> float -> float := SFsub prec emax.
Definition mul : float -> float -> float := SFmul prec emax.
Definition div : float -> float -> float := SFdiv prec emax.
Definition of_Z (z : Z) : float := binary_normalize prec emax z 0 false.
(** Widening of a [float]: exact, the value is only renormalised. *)
Definition of_float (x : float) : float :=
  match x with
  | S754_finite s m e => binary_normalize prec emax (cond_Zopp s (Zpos m)) e s
  | _ => x
  end.
(** A decimal literal [n / d] of the source, [n] and [d] both exact in
    binary64, so that the correctly rounded quotient is the literal's
    nearest double. *)
Definition lit (n d : Z) : float := div (of_Z n) (of_Z d).
(** An exact power of two. *)
Definition pow2 (k : Z) : float := binary_normalize prec emax 1 k false.
End F64.

(** Integral part of a floating value (truncation toward zero); infinities
    and NaN have none. *)
Definition float_trunc (x : float) : option Z :=
  match x with
  | S754_zero _ => Some 0
  | S754_finite s m e => Some (cond_Zopp s (Z.shiftl (Zpos m) e))
  | _ => None
  end.

(** C conversion of a floating value to [int32_t]: the integral part when
    the type can hold it, undefined otherwise. *)
Definition float_to_int32 (x : float) : option Z :=
  z <- float_trunc x ;; int32_checked z.

(** ** Data model (ms5611.h) *)

Definition MS5611_OK : Z := 0.
Definition MS5611_ERROR : Z := 1.

Inductive MS5611_Intf_e := MS5611_INTF_SPI | MS5611_INTF_I2C.

Inductive MS5611_OSRate_t :=
  | MS5611_ULTRA_LOW_POWER
  | MS5611_LOW_POWER
  | MS5611_STANDARD
  | MS5611_HIGH_RES
  | MS5611_ULTRA_HIGH_RES.

(** Ordinal of an enumerator. *)
Definition osr_ord (r : MS5611_OSRate_t) : Z :=
  match r with
  | MS5611_ULTRA_LOW_POWER => 0
  | MS5611_LOW_POWER => 1
  | MS5611_STANDARD => 2
  | MS5611_HIGH_RES => 3
  | MS5611_ULTRA_HIGH_RES => 4
  end.

Record MS5611_Data_t := {
  temperature : Z;   (* celsius * 10^2 *)
  pressure : Z       (* mbar * 10^2 *)
}.

(** [float C[7]]. *)
Record coefficients := {
  C0 : float; C1 : float; C2 : float; C3 : float;
  C4 : float; C5 : float; C6 : float
}.

(** [C[reg]] and [C[reg] = v]; the driver only indexes with 0..6. *)
Definition C_get (c : coefficients) (reg : Z) : float :=
  match reg with
  | 0 => C0 c | 1 => C1 c | 2 => C2 c | 3 => C3 c
  | 4 => C4 c | 5 => C5 c | 6 => C6 c
  | _ => S754_nan
  end.

Definition C_set (c : coefficients) (reg : Z) (v : float) : coefficients :=
  match reg with
  | 0 => {| C0 := v; C1 := C1 c; C2 := C2 c; C3 := C3 c; C4 := C4 c; C5 := C5 c; C6 := C6 c |}
  | 1 => {| C0 := C0 c; C1 := v; C2 := C2 c; C3 := C3 c; C4 := C4 c; C5 := C5 c; C6 := C6 c |}
  | 2 => {| C0 := C0 c; C1 := C1 c; C2 := v; C3 := C3 c; C4 := C4 c; C5 := C5 c; C6 := C6 c |}
  | 3 => {| C0 := C0 c; C1 := C1 c; C2 := C2 c; C3 := v; C4 := C4 c; C5 := C5 c; C6 := C6 c |}
  | 4 => {| C0 := C0 c; C1 := C1 c; C2 := C2 c; C3 := C3 c; C4 := v; C5 := C5 c; C6 := C6 c |}
  | 5 => {| C0 := C0 c; C1 := C1 c; C2 := C2 c; C3 := C3 c; C4 := C4 c; C5 := v; C6 := C6 c |}
  | 6 => {| C0 := C0 c; C1 := C1 c; C2 := C2 c; C3 := C3 c; C4 := C4 c; C5 := C5 c; C6 := v |}
  | _ => c
  end.

Record MS5611_Config_t := {
  osRate : MS5611_OSRate_t;   (* Output Sampling Rate *)
  ct : Z;                     (* Conversion Time, uint8_t *)
  C : coefficients            (* Coefficients *)
}.

(** ** Bus transport

    [read], [write] and [delay] are function pointers supplied by the
    caller.  Their behaviour is a function of everything that happened on
    the bus so far: a read yields a status and the contents it left in the
    receive buffer, a write yields a status.  Each call is appended to the
    history. *)

Inductive bus_event :=
  | EvWrite (reg : Z) (len : Z) (status : Z)
  | EvRead (reg : Z) (len : Z) (status : Z) (data : list byte)
  | EvDelay (ms : Z).

Definition history := list bus_event.

Record transport := {
  bus_read : history -> Z -> Z -> Z * list byte;
  bus_write : history -> Z -> Z -> Z
}.

Record MS5611_Device_t := {
  intf_type : MS5611_Intf_e;
  bus : transport;            (* intf, read, write, delay *)
  config : MS5611_Config_t
}.

Definition set_config (dev : MS5611_Device_t) (cfg : MS5611_Config_t) : MS5611_Device_t :=
  {| intf_type := intf_type dev; bus := bus dev; config := cfg |}.

(** [dev->read(dev->intf, reg, buf, len)]: the [int8_t] status, the buffer
    and the extended history. *)
Definition dev_read (b : transport) (h : history) (reg len : Z)
  : Z * list byte * history :=
  let '(st, data) := bus_read b h reg len in
  (to_int8 st, data, h ++ [EvRead reg len (to_int8 st) data]).

(** [dev->write(dev->intf, reg, NULL, len)]; the driver drops the status. *)
Definition dev_write (b : transport) (h : history) (reg len : Z) : history :=
  h ++ [EvWrite reg len (to_int8 (bus_write b h reg len))].

(** [dev->delay(ms)]. *)
Definition dev_delay (b : transport) (h : history) (ms : Z) : history :=
  h ++ [EvDelay ms].

(** [temp[i]] of a receive buffer. *)
Definition buf_at (data : list byte) (i : nat) : Z := byte_val (nth i data x00).

(** ** The driver (ms5611.c) *)

Definition MS5611_DEFAULT_OSR : MS5611_OSRate_t := MS5611_ULTRA_HIGH_RES.

Definition MS5611_CMD_RESET : Z := 0x1E.
Definition MS5611_CMD_READ_PROM : Z := 0xA0.
Definition MS5611_CMD_CONV_D1 : Z := 0x40.
Definition MS5611_CMD_CONV_D2 : Z := 0x50.
Definition MS5611_CMD_ADC_READ : Z := 0x00.

Definition zero_coefficients : coefficients :=
  {| C0 := S754_zero false; C1 := S754_zero false; C2 := S754_zero false;
     C3 := S754_zero false; C4 := S754_zero false; C5 := S754_zero false;
     C6 := S754_zero false |}.

(** The designated initialiser names the five transport members; [config]
    is zero-initialised. *)
Definition MS5611_NewDevice (b : transport) (ty : MS5611_Intf_e) : MS5611_Device_t :=
  {| intf_type := ty;
     bus := b;
     config := {| osRate := MS5611_ULTRA_LOW_POWER; ct := 0; C := zero_coefficients |} |}.

Definition MS5611_Reset (dev : MS5611_Device_t) (h : history) : history :=
  dev_write (bus dev) h MS5611_CMD_RESET 0.

(** The floating constants of [MS5611_InitConstants], each a [double]
    literal narrowed to [float] by the assignment. *)
Definition lit_3_90625Em3 : float := F32.of_double (F64.lit 390625 (10 ^ 8)).
Definition lit_7_8125Em3 : float := F32.of_double (F64.lit 78125 (10 ^ 7)).
Definition lit_1_5625Em2 : float := F32.of_double (F64.lit 15625 (10 ^ 6)).
Definition lit_1_1920928955Em7 : float := F32.of_double (F64.lit 11920928955 (10 ^ 17)).

Definition MS5611_InitConstants (dev : MS5611_Device_t) (mathMode : Z) : MS5611_Device_t :=
  let cfg := config dev in
  let c := C cfg in
  let c := C_set c 0 (F32.of_Z 1) in
  let c := C_set c 1 (F32.of_Z 32768) in
  let c := C_set c 2 (F32.of_Z 65536) in
  let c := C_set c 3 lit_3_90625Em3 in
  let c := C_set c 4 lit_7_8125Em3 in
  let c := C_set c 5 (F32.of_Z 256) in
  let c := C_set c 6 lit_1_1920928955Em7 in
  let c :=
    if mathMode =? 0 then c
    else
      let c := C_set c 1 (F32.of_Z 65536) in
      let c := C_set c 2 (F32.of_Z 131072) in
      let c := C_set c 3 lit_7_8125Em3 in
      C_set c 4 lit_1_5625Em2
  in
  set_config dev {| osRate := osRate cfg; ct := ct cfg; C := c |}.

Definition MS5611_ReadPROM (dev : MS5611_Device_t) (reg : Z) (h : history) : Z * history :=
  let mem := to_uint8 (MS5611_CMD_READ_PROM + reg * 2) in
  let '(_, temp, h) := dev_read (bus dev) h mem 2 in
  (to_uint16 (Z.lor (Z.shiftl (buf_at temp 0) 8) (buf_at temp 1)), h).

(** Body of the loop of [MS5611_PROM], for the remaining values of [reg]. *)
Fixpoint MS5611_PROM_loop (regs : list Z) (dev : MS5611_Device_t) (h : history) (rslt : Z)
  : Z * MS5611_Device_t * history :=
  match regs with
  | [] => (rslt, dev, h)
  | reg :: regs =>
      let '(tmp, h) := MS5611_ReadPROM dev reg h in
      let cfg := config dev in
      let c := C_set (C cfg) reg (F32.mul (C_get (C cfg) reg) (F32.of_Z tmp)) in
      let dev := set_config dev {| osRate := osRate cfg; ct := ct cfg; C := c |} in
      let rslt := if (0 <? reg) && (tmp =? 0) then MS5611_ERROR else rslt in
      MS5611_PROM_loop regs dev h rslt
  end.

Definition PROM_regs : list Z := [0; 1; 2; 3; 4; 5; 6].

Definition MS5611_PROM (dev : MS5611_Device_t) (h : history) : Z * MS5611_Device_t * history :=
  MS5611_PROM_loop PROM_regs dev h MS5611_OK.

Definition osrToConversitonTime (osr : MS5611_OSRate_t) : Z :=
  match osr with
  | MS5611_ULTRA_LOW_POWER => 1
  | MS5611_LOW_POWER => 2
  | MS5611_STANDARD => 3
  | MS5611_HIGH_RES => 5
  | MS5611_ULTRA_HIGH_RES => 10
  end.

Definition MS5611_SetOSRate (dev : MS5611_Device_t) (osr : MS5611_OSRate_t) : MS5611_Device_t :=
  let cfg := config dev in
  let cfg := {| osRate := osRate cfg; ct := osrToConversitonTime osr; C := C cfg |} in
  let cfg := {| osRate := osr; ct := ct cfg; C := C cfg |} in
  set_config dev cfg.

Definition MS5611_GetOSRate (dev : MS5611_Device_t) : MS5611_OSRate_t :=
  osRate (config dev).

Definition MS5611_Init (dev : MS5611_Device_t) (h : history) : Z * MS5611_Device_t * history :=
  let h := MS5611_Reset dev h in
  let dev := MS5611_SetOSRate dev MS5611_DEFAULT_OSR in
  let dev := MS5611_InitConstants dev 0 in
  let h := dev_delay (bus dev) h 20 in
  MS5611_PROM dev h.

Definition MS5611_Convert (dev : MS5611_Device_t) (addr : Z) (h : history) : history :=
  let cmd_convert := to_uint8 (addr + osr_ord (osRate (config dev)) * 2) in
  dev_write (bus dev) h cmd_convert 0.

Definition MS5611_AdcRead (dev : MS5611_Device_t) (h : history) : Z * Z * history :=
  let '(rslt, temp, h) := dev_read (bus dev) h MS5611_CMD_ADC_READ 3 in
  let buffer :=
    Z.lor (Z.lor (Z.shiftl (buf_at temp 0) 16) (Z.shiftl (buf_at temp 1) 8)) (buf_at temp 2) in
  (rslt, buffer, h).

(** The [double] literals of [MS5611_RawDataProcess]. *)
Definition lit_4_6566128731Em10 : float := F64.lit 46566128731 (10 ^ 20).
Definition lit_4_76837158205Em7 : float := F64.lit 476837158205 (10 ^ 18).
Definition lit_3_051757813Em5 : float := F64.lit 3051757813 (10 ^ 14).
Definition lit_2_5 : float := F64.lit 25 10.
Definition lit_1_25 : float := F64.lit 125 100.
Definition lit_5_5 : float := F64.lit 55 10.

(** Last statement of [MS5611_RawDataProcess]:
    [(D1 * sens * 4.76837158205E-7 - offset) * 3.051757813E-5], the product
    [D1 * sens] in [float], the rest in [double], converted to [int32_t]. *)
Definition pressure_of (D1 : Z) (sens offset : float) : option Z :=
  float_to_int32
    (F64.mul
       (F64.sub
          (F64.mul (F64.of_float (F32.mul (F32.of_Z D1) sens)) lit_4_76837158205Em7)
          (F64.of_float offset))
       lit_3_051757813Em5).

Definition MS5611_RawDataProcess (dev : MS5611_Device_t) (D1 D2 : Z) (compensation : Z)
  : option MS5611_Data_t :=
  let c := C (config dev) in
  let dT := F32.sub (F32.of_Z D2) (C_get c 5) in
  temperature <- float_to_int32 (F32.add (F32.of_Z 2000) (F32.mul dT (C_get c 6))) ;;
  let offset := F32.add (C_get c 2) (F32.mul dT (C_get c 4)) in
  let sens := F32.add (C_get c 1) (F32.mul dT (C_get c 3)) in
  '(temperature, offset, sens) <-
    (if compensation =? 0 then Some (temperature, offset, sens)
     else if temperature <? 2000 then
       let T2 := F32.of_double
                   (F64.mul (F64.of_float (F32.mul dT dT)) lit_4_6566128731Em10) in
       a <- int32_sub temperature 2000 ;;
       aa <- int32_mul a a ;;
       let t := F32.of_Z aa in
       let offset2 := F32.of_double (F64.mul lit_2_5 (F64.of_float t)) in
       let sens2 := F32.of_double (F64.mul lit_1_25 (F64.of_float t)) in
       '(offset2, sens2) <-
         (if temperature <? -1500 then
            b <- int32_add temperature 1500 ;;
            bb <- int32_mul b b ;;
            let t := F32.of_Z bb in
            Some (F32.add offset2 (F32.mul (F32.of_Z 7) t),
                  F32.of_double
                    (F64.add (F64.of_float sens2) (F64.mul lit_5_5 (F64.of_float t))))
          else Some (offset2, sens2)) ;;
       temperature <- float_to_int32 (F32.sub (F32.of_Z temperature) T2) ;;
       Some (temperature, F32.sub offset offset2, F32.sub sens sens2)
     else Some (temperature, offset, sens)) ;;
  pressure <- pressure_of D1 sens offset ;;
  Some {| temperature := temperature; pressure := pressure |}.

(** [*pTemp] and [*pPress] are returned next to the status. *)
Definition MS5611_GetData (dev : MS5611_Device_t) (h : history)
  : option (Z * float * float * history) :=
  let rslt := MS5611_OK in
  let h := MS5611_Convert dev MS5611_CMD_CONV_D1 h in
  let h := dev_delay (bus dev) h (ct (config dev)) in
  let '(r, D1, h) := MS5611_AdcRead dev h in
  let rslt := to_int8 (Z.lor rslt r) in
  let h := MS5611_Convert dev MS5611_CMD_CONV_D2 h in
  let h := dev_delay (bus dev) h (ct (config dev)) in
  let '(r, D2, h) := MS5611_AdcRead dev h in
  let rslt := to_int8 (Z.lor rslt r) in
  data <- MS5611_RawDataProcess dev D1 D2 1 ;;
  let pTemp := F32.div (F32.of_Z (temperature data)) (F32.of_Z 100) in
  let pPress := F32.div (F32.of_Z (pressure data)) (F32.of_Z 100) in
  Some (rslt, pTemp, pPress, h).

(** ** The compensation engine as the specification words it

    Steps 1 to 6 of the specification's compensation engine, as a function
    of the coefficient set and the raw sample pair.  The arithmetic is that
    of the driver's C types; the scale constants of steps 5 and 6
    ([k31], [k21], [k15]) are parameters, so that the same formulas can be
    read with exact powers of two or with the decimal constants. *)

Module Spec.
Section Engine.
Variable c : coefficients.
Variables D1 D2 : Z.

(** 1. dT = D2 - coefficient[5]. *)
Definition dT : float := F32.sub (F32.of_Z D2) (C5 c).

(** 2. TEMP = 2000 + dT * coefficient[6], truncated toward zero. *)
Definition TEMP : option Z :=
  float_to_int32 (F32.add (F32.of_Z 2000) (F32.mul dT (C6 c))).

(** 3. OFFSET = coefficient[2] + dT * coefficient[4]. *)
Definition OFFSET : float := F32.add (C2 c) (F32.mul dT (C4 c)).

(** 4. SENS = coefficient[1] + dT * coefficient[3]. *)
Definition SENS : float := F32.add (C1 c) (F32.mul dT (C3 c)).

(** 6. Pressure = (D1 * SENS * k21 - OFFSET) * k15, truncated toward zero. *)
Definition Pressure (k21 k15 : float) (sens offset : float) : option Z :=
  float_to_int32
    (F64.mul
       (F64.sub (F64.mul (F64.of_float (F32.mul (F32.of_Z D1) sens)) k21)
                (F64.of_float offset))
       k15).

(** The first-order (uncorrected) measurement. *)
Definition first_order (k21 k15 : float) : option MS5611_Data_t :=
  T <- TEMP ;;
  P <- Pressure k21 k15 SENS OFFSET ;;
  Some {| temperature := T; pressure := P |}.

(** 5. T2 = dT^2 * k31. *)
Definition T2 (k31 : float) : float :=
  F32.of_double (F64.mul (F64.of_float (F32.mul dT dT)) k31).

(** base = (TEMP - 2000)^2 and extra = (TEMP + 1500)^2, on [int]. *)
Definition base (T : Z) : option Z := a <- int32_sub T 2000 ;; int32_mul a a.
Definition extra (T : Z) : option Z := b <- int32_add T 1500 ;; int32_mul b b.

(** OFFSET2 = 2.5 * base, plus 7 * extra below -1500. *)
Definition OFFSET2 (T : Z) : option float :=
  b <- base T ;;
  let moderate := F32.of_double (F64.mul lit_2_5 (F64.of_float (F32.of_Z b))) in
  if T <? -1500 then
    e <- extra T ;;
    Some (F32.add moderate (F32.mul (F32.of_Z 7) (F32.of_Z e)))
  else Some moderate.

(** SENS2 = 1.25 * base, plus 5.5 * extra below -1500. *)
Definition SENS2 (T : Z) : option float :=
  b <- base T ;;
  let moderate := F32.of_double (F64.mul lit_1_25 (F64.of_float (F32.of_Z b))) in
  if T <? -1500 then
    e <- extra T ;;
    Some (F32.of_double
            (F64.add (F64.of_float moderate)
                     (F64.mul lit_5_5 (F64.of_float (F32.of_Z e)))))
  else Some moderate.

(** The measurement with compensation enabled: below TEMP = 2000 the
    second-order terms are subtracted, the tests being made on the
    uncorrected TEMP. *)
Definition second_order (k31 k21 k15 : float) : option MS5611_Data_t :=
  T <- TEMP ;;
  if T <? 2000 then
    O2 <- OFFSET2 T ;;
    S2 <- SENS2 T ;;
    T' <- float_to_int32 (F32.sub (F32.of_Z T) (T2 k31)) ;;
    P <- Pressure k21 k15 (F32.sub SENS S2) (F32.sub OFFSET O2) ;;
    Some {| temperature := T'; pressure := P |}
  else first_order k21 k15.

(** Step 5 with the squares as the specification writes them, in the
    integers: base = (TEMP - 2000)^2 and extra = (TEMP + 1500)^2 whatever
    their size. *)
Definition base_Z (T : Z) : Z := (T - 2000) * (T - 2000).
Definition extra_Z (T : Z) : Z := (T + 1500) * (T + 1500).

Definition OFFSET2_Z (T : Z) : float :=
  let moderate := F32.of_double (F64.mul lit_2_5 (F64.of_float (F32.of_Z (base_Z T)))) in
  if T <? -1500
  then F32.add moderate (F32.mul (F32.of_Z 7) (F32.of_Z (extra_Z T)))
  else moderate.

Definition SENS2_Z (T : Z) : float :=
  let moderate := F32.of_double (F64.mul lit_1_25 (F64.of_float (F32.of_Z (base_Z T)))) in
  if T <? -1500
  then F32.of_double
         (F64.add (F64.of_float moderate)
                  (F64.mul lit_5_5 (F64.of_float (F32.of_Z (extra_Z T)))))
  else moderate.

Definition second_order_Z (k31 k21 k15 : float) : option MS5611_Data_t :=
  T <- TEMP ;;
  if T <? 2000 then
    T' <- float_to_int32 (F32.sub (F32.of_Z T) (T2 k31)) ;;
    P <- Pressure k21 k15 (F32.sub SENS (SENS2_Z T)) (F32.sub OFFSET (OFFSET2_Z T)) ;;
    Some {| temperature := T'; pressure := P |}
  else first_order k21 k15.
End Engine.

Section Bus.
Variable b : transport.

(** Big-endian assembly of a 2-byte and of a 3-byte buffer. *)
Definition be16 (data : list byte) : Z := 256 * buf_at data 0 + buf_at data 1.
Definition be24 (data : list byte) : Z :=
  65536 * buf_at data 0 + 256 * buf_at data 1 + buf_at data 2.

(** Calibration slot [k]: a 2-byte read at base address + 2k, taken as a
    big-endian word. *)
Definition prom_address (k : Z) : Z := MS5611_CMD_READ_PROM + 2 * k.

Definition read_slot (h : history) (k : Z) : Z * history :=
  let '(_, data, h) := dev_read b h (prom_address k) 2 in
  (be16 data, h).

(** One step of the conversion sequencer: the command byte base + 2 * rate
    ordinal as a zero-payload write, the settle delay of the configured
    conversion time, a 3-byte read of the ADC result; yields the read
    status and the raw sample. *)
Definition convert_command (base : Z) (rate : MS5611_OSRate_t) : Z :=
  base + 2 * osr_ord rate.

Definition sample (cfg : MS5611_Config_t) (h : history) (base : Z) : Z * Z * history :=
  let h := dev_write b h (convert_command base (osRate cfg)) 0 in
  let h := dev_delay b h (ct cfg) in
  let '(st, data, h) := dev_read b h MS5611_CMD_ADC_READ 3 in
  (st, be24 data, h).
End Bus.
End Spec.

(** ** What the calibration loader sees

    The history when the loader is about to read slot [k] (slots 0 to k-1
    have been read), and the word it then reads for slot [k]. *)

Fixpoint PROM_history (k : nat) (b : transport) (h : history) : history :=
  match k with
  | O => h
  | S k' => snd (Spec.read_slot b (PROM_history k' b h) (Z.of_nat k'))
  end.

Definition PROM_word (b : transport) (h : history) (k : Z) : Z :=
  fst (Spec.read_slot b (PROM_history (Z.to_nat k) b h) k).

(** Every slot multiplied by its word. *)
Definition PROM_coefficients (c : coefficients) (b : transport) (h : history)
  : coefficients :=
  let w := fun k => F32.of_Z (PROM_word b h k) in
  {| C0 := F32.mul (C0 c) (w 0); C1 := F32.mul (C1 c) (w 1);
     C2 := F32.mul (C2 c) (w 2); C3 := F32.mul (C3 c) (w 3);
     C4 := F32.mul (C4 c) (w 4); C5 := F32.mul (C5 c) (w 5);
     C6 := F32.mul (C6 c) (w 6) |}.

(** Failure when a word of the slots 1 to 6 is zero. *)
Definition PROM_status (b : transport) (h : history) : Z :=
  if existsb (fun k => PROM_word b h k =? 0) [1; 2; 3; 4; 5; 6]
  then MS5611_ERROR else MS5611_OK.

(** The coefficient store and the status update of one loop iteration. *)
Definition PROM_store (dev : MS5611_Device_t) (reg tmp : Z) : MS5611_Device_t :=
  set_config dev
    {| osRate := osRate (config dev); ct := ct (config dev);
       C := C_set (C (config dev)) reg
              (F32.mul (C_get (C (config dev)) reg) (F32.of_Z tmp)) |}.

Definition PROM_flag (reg tmp rslt : Z) : Z :=
  if (0 <? reg) && (tmp =? 0) then MS5611_ERROR else rslt.

(** Initialisation in the order the specification lists its steps: reset,
    settle delay, default sampling rate, base constants, calibration load. *)
Definition Init_as_specified (dev : MS5611_Device_t) (h : history)
  : Z * MS5611_Device_t * history :=
  let h := MS5611_Reset dev h in
  let h := dev_delay (bus dev) h 20 in
  let dev := MS5611_SetOSRate dev MS5611_ULTRA_HIGH_RES in
  let dev := MS5611_InitConstants dev 0 in
  MS5611_PROM dev h.

(** The base constants of a math mode. *)
Definition base_constants (mathMode : Z) : coefficients :=
  if mathMode =? 0 then
    {| C0 := F32.of_Z 1; C1 := F32.of_Z 32768; C2 := F32.of_Z 65536;
       C3 := lit_3_90625Em3; C4 := lit_7_8125Em3; C5 := F32.of_Z 256;
       C6 := lit_1_1920928955Em7 |}
  else
    {| C0 := F32.of_Z 1; C1 := F32.of_Z 65536; C2 := F32.of_Z 131072;
       C3 := lit_7_8125Em3; C4 := lit_1_5625Em2; C5 := F32.of_Z 256;
       C6 := lit_1_1920928955Em7 |}.

(** ** Decidable checks used by exhaustive arguments *)

Definition float_eqb (x y : float) : bool :=
  match x, y with
  | S754_zero a, S754_zero b => Bool.eqb a b
  | S754_infinity a, S754_infinity b => Bool.eqb a b
  | S754_nan, S754_nan => true
  | S754_finite a m e, S754_finite b n f => Bool.eqb a b && Pos.eqb m n && Z.eqb e f
  | _, _ => false
  end.

(** [P] holds of the [2^n] values whose binary writing is that of [acc]
    followed by [n] more bits. *)
Fixpoint all_bits (n : nat) (P : Z -> bool) (acc : Z) : bool :=
  match n with
  | O => P acc
  | S n' => all_bits n' P (2 * acc) && all_bits n' P (2 * acc + 1)
  end.

(** ** A scripted sensor, for running the driver on concrete inputs *)

Definition byte_of_Z (z : Z) : byte :=
  match Byte.of_N (Z.to_N (z mod 256)) with
  | Some b => b
  | None => x00
  end.

Definition be_bytes2 (w : Z) : list byte := [byte_of_Z (w / 256); byte_of_Z w].
Definition be_bytes3 (w : Z) : list byte :=
  [byte_of_Z (w / 65536); byte_of_Z (w / 256); byte_of_Z w].

(** Register of the last command written, [acc] when there was none. *)
Fixpoint last_write (h : history) (acc : Z) : Z :=
  match h with
  | [] => acc
  | EvWrite reg _ _ :: h => last_write h reg
  | _ :: h => last_write h acc
  end.

(** The PROM holds [prom]; an ADC read yields [d1] with status [st1] after a
    D1 conversion command and [d2] with status [st2] after a D2 one. *)
Definition scripted_bus (prom : list Z) (d1 d2 st1 st2 : Z) : transport :=
  {| bus_read := fun h reg _ =>
       if reg =? MS5611_CMD_ADC_READ then
         if last_write h 0 <? MS5611_CMD_CONV_D2
         then (st1, be_bytes3 d1) else (st2, be_bytes3 d2)
       else (0, be_bytes2 (nth (Z.to_nat ((reg - MS5611_CMD_READ_PROM) / 2)) prom 0));
     bus_write := fun _ _ _ => 0 |}.

(** PROM of the data sheet's worked example, and a PROM whose words give
    SENS = 2^21 and OFFSET = 2^22 + 2^15 at D2 = 65792; word 0 is factory
    data. *)
Definition prom_datasheet : list Z := [7; 40127; 36924; 23317; 23282; 33464; 28312].
Definition prom_edge : list Z := [7; 32; 64; 4096; 64; 1; 1].

(** The sensor of the worked example; the same sensor with a blank word in
    slot 4 and failing ADC reads. *)
Definition sensor_datasheet : transport :=
  scripted_bus prom_datasheet 9085466 8569150 0 0.
Definition sensor_faulty : transport :=
  scripted_bus [7; 40127; 36924; 23317; 0; 33464; 28312] 9085466 8569150 2 (-3).

(** A new handle on a sensor whose PROM holds [prom], the handle with the
    base constants set, and the handle after [MS5611_Init]. *)
Definition fresh (b : transport) : MS5611_Device_t :=
  MS5611_NewDevice b MS5611_INTF_I2C.

Definition based (b : transport) : MS5611_Device_t :=
  MS5611_InitConstants (fresh b) 0.

Definition calibrated (prom : list Z) : MS5611_Device_t :=
  snd (fst (MS5611_Init (fresh (scripted_bus prom 0 0 0 0)) [])).

(** ** Further driver functions and observations *)

(** [MS5611_Test]: a 1-byte read at the PROM base address; the read's status
    is the result. *)
Definition MS5611_Test (dev : MS5611_Device_t) (h : history) : Z * history :=
  let '(st, _, h) := dev_read (bus dev) h MS5611_CMD_READ_PROM 1 in
  (st, h).

(** What the driver asks of the bus in an event, without what the transport
    answered (statuses and received bytes). *)
Definition event_shape (e : bus_event) : bus_event :=
  match e with
  | EvWrite reg len _ => EvWrite reg len 0
  | EvRead reg len _ _ => EvRead reg len 0 []
  | EvDelay ms => EvDelay ms
  end.

(** [float_scaled x k] is the integer [x * 2^k] when [x] is finite and
    [x * 2^k] is an integer, and [None] otherwise: the exact value of [x],
    with no rounding. *)
Definition float_scaled (x : float) (k : Z) : option Z :=
  match x with
  | S754_zero _ => Some 0
  | S754_finite s m e =>
      if 0 <=? e + k then Some (cond_Zopp s (Zpos m * 2 ^ (e + k)))
      else if Zpos m mod 2 ^ (- (e + k)) =? 0
           then Some (cond_Zopp s (Zpos m / 2 ^ (- (e + k))))
           else None
  | _ => None
  end.

(** [float_scaled x k] is [Some z], as a boolean. *)
Definition float_scaled_is (x : float) (k z : Z) : bool :=
  match float_scaled x k with
  | Some v => v =? z
  | None => false
  end.

(** Shift of the pressure constants of a math mode against the standard
    one: the second set of [MS5611_InitConstants] doubles C[1] to C[4]. *)
Definition mode_shift (mathMode : Z) : Z := if mathMode =? 0 then 0 else 1.

(** Zero or a positive finite value. *)
Definition nonneg_finite (x : float) : bool :=
  match x with
  | S754_zero false | S754_finite false _ _ => true
  | _ => false
  end.

(** A PROM whose reference-temperature and temperature-sensitivity words are
    both 0xFFFF. *)
Definition prom_cold : list Z := [7; 40127; 36924; 23317; 23282; 65535; 65535].



(** * Properties *)

(** ** Compensation engine *)

(** The data sheet's worked example: 20.07 degrees C and 1000.09 mbar. *)
Example RawDataProcess_datasheet :
  MS5611_RawDataProcess (calibrated prom_datasheet) 9085466 8569150 1
  = Some {| temperature := 2007; pressure := 100009 |}.
Proof. vm_compute. reflexivity. Qed.

(** The decimal scale constants are close to, and different from, the
    powers of two. *)
Lemma scale_constants_values :
  lit_4_76837158205Em7 = S754_finite false 4503599627388205 (-73) /\
  F64.pow2 (-21) = S754_finite false 4503599627370496 (-73) /\
  lit_3_051757813Em5 = S754_finite false 4503599628108366 (-67) /\
  F64.pow2 (-15) = S754_finite false 4503599627370496 (-67) /\
  lit_4_6566128731Em10 = S754_finite false 4503599627392361 (-83) /\
  F64.pow2 (-31) = S754_finite false 4503599627370496 (-83).
Proof. vm_compute. repeat split. Qed.

(** The base constants of the standard math mode are exact powers of two. *)
Lemma InitConstants_values :
  lit_3_90625Em3 = S754_finite false 8388608 (-31) /\
  lit_7_8125Em3 = S754_finite false 8388608 (-30) /\
  lit_1_5625Em2 = S754_finite false 8388608 (-29) /\
  lit_1_1920928955Em7 = S754_finite false 8388608 (-46).
Proof. vm_compute. repeat split. Qed.

Lemma pressure_of_spec (D1 : Z) (sens offset : float) :
  pressure_of D1 sens offset
  = Spec.Pressure D1 lit_4_76837158205Em7 lit_3_051757813Em5 sens offset.
Proof. reflexivity. Qed.

(** The driver's transform is the specification's engine read with the
    decimal constants: first order when the flag is off, second order when
    it is on. *)
Lemma RawDataProcess_cases (dev : MS5611_Device_t) (D1 D2 compensation : Z) :
  MS5611_RawDataProcess dev D1 D2 compensation
  = if compensation =? 0
    then Spec.first_order (C (config dev)) D1 D2
           lit_4_76837158205Em7 lit_3_051757813Em5
    else Spec.second_order (C (config dev)) D1 D2
           lit_4_6566128731Em10 lit_4_76837158205Em7 lit_3_051757813Em5.
Proof.
  unfold MS5611_RawDataProcess, Spec.second_order, Spec.first_order.
  change (C_get (C (config dev)) 5) with (C5 (C (config dev))).
  fold (Spec.dT (C (config dev)) D2).
  change (float_to_int32 _) with (Spec.TEMP (C (config dev)) D2) at 1.
  destruct (Spec.TEMP (C (config dev)) D2) as [T|]; cbn [obind].
  2: now destruct (compensation =? 0).
  destruct (compensation =? 0); [reflexivity|].
  destruct (T <? 2000) eqn:Hcold; [|reflexivity].
  unfold Spec.OFFSET2, Spec.SENS2, Spec.base, Spec.extra.
  destruct (int32_sub T 2000) as [a|]; cbn [obind]; [|reflexivity].
  destruct (int32_mul a a) as [aa|]; cbn [obind]; [|reflexivity].
  destruct (T <? -1500).
  - destruct (int32_add T 1500) as [b|]; cbn [obind]; [|reflexivity].
    destruct (int32_mul b b) as [bb|]; cbn [obind]; [|reflexivity].
    fold (Spec.T2 (C (config dev)) D2 lit_4_6566128731Em10).
    destruct (float_to_int32 _) as [T'|]; reflexivity.
  - cbn [obind].
    fold (Spec.T2 (C (config dev)) D2 lit_4_6566128731Em10).
    destruct (float_to_int32 _) as [T'|]; reflexivity.
Qed.

(** The claim as worded, with exact powers of two, at a calibrated handle:
    the driver yields pressure 0 where the formula with 2^-21 and 2^-15
    yields -1. *)
Lemma RawDataProcess_edge_values :
  MS5611_RawDataProcess (calibrated prom_edge) 4194304 65792 0
  = Some {| temperature := 2000; pressure := 0 |} /\
  Spec.first_order (C (config (calibrated prom_edge))) 4194304 65792
    (F64.pow2 (-21)) (F64.pow2 (-15))
  = Some {| temperature := 2000; pressure := -1 |}.
Proof. split; vm_compute; reflexivity. Qed.

(** C1, as worded (scale constants exactly 2^-21 and 2^-15): refuted at the
    handle calibrated from [prom_edge] with D1 = 4194304, D2 = 65792,
    compensation off (TEMP = 2000). *)
Lemma RawDataProcess_exact_powers_refuted :
  ~ (forall (dev : MS5611_Device_t) (D1 D2 compensation : Z),
        0 <= D1 < 2 ^ 24 -> 0 <= D2 < 2 ^ 24 ->
        compensation = 0 \/
        (exists T, Spec.TEMP (C (config dev)) D2 = Some T /\ 2000 <= T) ->
        MS5611_RawDataProcess dev D1 D2 compensation
        = Spec.first_order (C (config dev)) D1 D2 (F64.pow2 (-21)) (F64.pow2 (-15))).
Proof.
  intros H.
  specialize (H (calibrated prom_edge) 4194304 65792 0
                ltac:(lia) ltac:(lia) (or_introl eq_refl)).
  vm_compute in H. discriminate H.
Qed.

(** C1, amended: with compensation disabled or TEMP >= 2000 the transform
    computes dT = D2 - C[5], temperature = 2000 + dT*C[6] truncated toward
    zero, OFFSET = C[2] + dT*C[4], SENS = C[1] + dT*C[3] and pressure =
    (D1*SENS*k21 - OFFSET)*k15 truncated toward zero, where k21 and k15 are
    the doubles written 4.76837158205E-7 and 3.051757813E-5. *)
Theorem RawDataProcess_first_order
  (dev : MS5611_Device_t) (D1 D2 compensation : Z) :
  compensation = 0 \/
  (exists T, Spec.TEMP (C (config dev)) D2 = Some T /\ 2000 <= T) ->
  MS5611_RawDataProcess dev D1 D2 compensation
  = Spec.first_order (C (config dev)) D1 D2
      lit_4_76837158205Em7 lit_3_051757813Em5.
Proof.
  intros H. rewrite RawDataProcess_cases.
  destruct (compensation =? 0) eqn:Hc; [reflexivity|].
  destruct H as [H | (T & HT & Hge)].
  - subst compensation. discriminate Hc.
  - unfold Spec.second_order. rewrite HT. cbn [obind].
    replace (T <? 2000) with false by (symmetry; apply Z.ltb_ge; exact Hge).
    unfold Spec.first_order. rewrite HT. reflexivity.
Qed.

Lemma RawDataProcess_first_order_witness :
  MS5611_RawDataProcess (calibrated prom_datasheet) 9085466 8569150 1
  = Spec.first_order (C (config (calibrated prom_datasheet))) 9085466 8569150
      lit_4_76837158205Em7 lit_3_051757813Em5.
Proof.
  apply (RawDataProcess_first_order (calibrated prom_datasheet) 9085466 8569150 1).
  right. exists 2007. split; [vm_compute; reflexivity | lia].
Defined.

Lemma int32_checked_in (z : Z) :
  INT32_MIN <= z <= INT32_MAX -> int32_checked z = Some z.
Proof.
  intros [Hlo Hhi]. unfold int32_checked, in_int32.
  apply Z.leb_le in Hlo, Hhi. rewrite Hlo, Hhi. reflexivity.
Qed.

(** From -44340 up to 1999 the [int] squares of the correction are the
    integer squares, and the second-order terms those of the
    specification. *)
Lemma base_in_range (T : Z) :
  -44340 <= T < 2000 -> Spec.base T = Some (Spec.base_Z T).
Proof.
  intros H. unfold Spec.base, Spec.base_Z, int32_sub, int32_mul.
  rewrite int32_checked_in by (unfold INT32_MIN, INT32_MAX; lia).
  cbn [obind].
  apply int32_checked_in. unfold INT32_MIN, INT32_MAX. nia.
Qed.

Lemma extra_in_range (T : Z) :
  -44340 <= T < 2000 -> Spec.extra T = Some (Spec.extra_Z T).
Proof.
  intros H. unfold Spec.extra, Spec.extra_Z, int32_add, int32_mul.
  rewrite int32_checked_in by (unfold INT32_MIN, INT32_MAX; lia).
  cbn [obind].
  apply int32_checked_in. unfold INT32_MIN, INT32_MAX. nia.
Qed.

Lemma OFFSET2_in_range (T : Z) :
  -44340 <= T < 2000 -> Spec.OFFSET2 T = Some (Spec.OFFSET2_Z T).
Proof.
  intros H. unfold Spec.OFFSET2, Spec.OFFSET2_Z.
  rewrite base_in_range by exact H. cbn [obind].
  destruct (T <? -1500); [|reflexivity].
  rewrite extra_in_range by exact H. reflexivity.
Qed.

Lemma SENS2_in_range (T : Z) :
  -44340 <= T < 2000 -> Spec.SENS2 T = Some (Spec.SENS2_Z T).
Proof.
  intros H. unfold Spec.SENS2, Spec.SENS2_Z.
  rewrite base_in_range by exact H. cbn [obind].
  destruct (T <? -1500); [|reflexivity].
  rewrite extra_in_range by exact H. reflexivity.
Qed.

Lemma second_order_in_range
  (c : coefficients) (D1 D2 T : Z) (k31 k21 k15 : float) :
  Spec.TEMP c D2 = Some T -> -44340 <= T ->
  Spec.second_order c D1 D2 k31 k21 k15 = Spec.second_order_Z c D1 D2 k31 k21 k15.
Proof.
  intros HT Hlo. unfold Spec.second_order, Spec.second_order_Z.
  rewrite HT. cbn [obind].
  destruct (T <? 2000) eqn:Hcold; [|reflexivity].
  apply Z.ltb_lt in Hcold.
  rewrite OFFSET2_in_range, SENS2_in_range by lia.
  reflexivity.
Qed.

(** The transform and the specification's second-order engine, squares in
    the integers, on the sensor calibrated from [prom_cold]: they agree at
    uncorrected TEMP -44340 and part at -44341, where the [int] square
    (TEMP - 2000)^2 = 46341^2 exceeds the type. *)
Example RawDataProcess_overflow_values :
  let c := C (config (calibrated prom_cold)) in
  Spec.TEMP c 10845222 = Some (-44340) /\
  MS5611_RawDataProcess (calibrated prom_cold) 9085466 10845222 1
  = Some {| temperature := -60724; pressure := -1072040 |} /\
  Spec.TEMP c 10845221 = Some (-44341) /\
  MS5611_RawDataProcess (calibrated prom_cold) 9085466 10845221 1 = None /\
  Spec.second_order_Z c 9085466 10845221
    lit_4_6566128731Em10 lit_4_76837158205Em7 lit_3_051757813Em5
  = Some {| temperature := -60725; pressure := -1072092 |} /\
  Spec.second_order_Z c 9085466 10845221
    (F64.pow2 (-31)) (F64.pow2 (-21)) (F64.pow2 (-15))
  = Some {| temperature := -60725; pressure := -1072092 |}.
Proof. vm_compute. repeat split. Qed.

(** C2, as worded (for every input with compensation enabled): refuted at
    the handle calibrated from [prom_cold] with D1 = 9085466,
    D2 = 10845221, where the uncorrected TEMP is -44341: the formulas with
    OFFSET2 = 2.5*(TEMP-2000)^2 + 7*(TEMP+1500)^2 and SENS2 =
    1.25*(TEMP-2000)^2 + 5.5*(TEMP+1500)^2 yield -60725 and -1072092, the
    transform has no defined result. *)
Lemma RawDataProcess_second_order_refuted :
  ~ (forall (dev : MS5611_Device_t) (D1 D2 compensation : Z),
        compensation <> 0 ->
        MS5611_RawDataProcess dev D1 D2 compensation
        = Spec.second_order_Z (C (config dev)) D1 D2
            lit_4_6566128731Em10 lit_4_76837158205Em7 lit_3_051757813Em5).
Proof.
  intros H.
  specialize (H (calibrated prom_cold) 9085466 10845221 1 ltac:(discriminate)).
  vm_compute in H. discriminate H.
Qed.

(** C2, amended: with compensation enabled and the uncorrected TEMP at
    least -44340, the transform is the second-order engine: the correction
    is applied exactly when the uncorrected TEMP is below 2000 (at 2000 and
    above the result is the first-order one), the terms 7*(TEMP+1500)^2 and
    5.5*(TEMP+1500)^2 are added to OFFSET2 = 2.5*(TEMP-2000)^2 and SENS2 =
    1.25*(TEMP-2000)^2 exactly when the uncorrected TEMP is below -1500,
    and then TEMP, OFFSET and SENS are decreased by T2 = dT^2 * k31, OFFSET2
    and SENS2, where k31 is the double written 4.6566128731E-10. *)
Theorem RawDataProcess_second_order
  (dev : MS5611_Device_t) (D1 D2 compensation T : Z) :
  compensation <> 0 ->
  Spec.TEMP (C (config dev)) D2 = Some T ->
  -44340 <= T ->
  MS5611_RawDataProcess dev D1 D2 compensation
  = Spec.second_order_Z (C (config dev)) D1 D2
      lit_4_6566128731Em10 lit_4_76837158205Em7 lit_3_051757813Em5
  /\ (2000 <= T ->
      MS5611_RawDataProcess dev D1 D2 compensation
      = MS5611_RawDataProcess dev D1 D2 0).
Proof.
  intros H HT Hlo. rewrite !RawDataProcess_cases.
  destruct (compensation =? 0) eqn:Hc.
  { apply Z.eqb_eq in Hc. contradiction. }
  split.
  - apply second_order_in_range with (T := T); assumption.
  - intros Hge. cbn [Z.eqb].
    unfold Spec.second_order. rewrite HT. cbn [obind].
    replace (T <? 2000) with false by (symmetry; apply Z.ltb_ge; exact Hge).
    reflexivity.
Qed.

Lemma RawDataProcess_second_order_witness :
  MS5611_RawDataProcess (calibrated prom_datasheet) 9085466 7500000 1
  = Spec.second_order_Z (C (config (calibrated prom_datasheet))) 9085466 7500000
      lit_4_6566128731Em10 lit_4_76837158205Em7 lit_3_051757813Em5.
Proof.
  apply (RawDataProcess_second_order
           (calibrated prom_datasheet) 9085466 7500000 1 (-1600)).
  - lia.
  - vm_compute. reflexivity.
  - lia.
Defined.

(** The second-order terms on both sides of the deep-cold breakpoint, and
    the transform on the worked example's sensor at uncorrected TEMP 2000,
    -1499 and -1600. *)
Example second_order_terms :
  Spec.OFFSET2 (-1500) = Some (F32.of_Z 30625000) /\
  Spec.SENS2 (-1500) = Some (F32.of_Z 15312500) /\
  Spec.OFFSET2 (-1600) = Some (F32.of_Z (32400000 + 70000)) /\
  Spec.SENS2 (-1600) = Some (F32.of_Z (16200000 + 55000)).
Proof. vm_compute. repeat split. Qed.

Example RawDataProcess_cold :
  let dev := calibrated prom_datasheet in
  Spec.TEMP (C (config dev)) 8566784 = Some 2000 /\
  MS5611_RawDataProcess dev 9085466 8566784 1
  = Some {| temperature := 2000; pressure := 99993 |} /\
  Spec.TEMP (C (config dev)) 7530000 = Some (-1499) /\
  MS5611_RawDataProcess dev 9085466 7530000 1
  = Some {| temperature := -1999; pressure := 92174 |} /\
  MS5611_RawDataProcess dev 9085466 7530000 0
  = Some {| temperature := -1499; pressure := 93263 |} /\
  Spec.TEMP (C (config dev)) 7500000 = Some (-1600) /\
  MS5611_RawDataProcess dev 9085466 7500000 1
  = Some {| temperature := -2129; pressure := 91910 |} /\
  MS5611_RawDataProcess dev 9085466 7500000 0
  = Some {| temperature := -1600; pressure := 93069 |}.
Proof. vm_compute. repeat split. Qed.

(** C8: with the compensation flag off the transform yields the first-order
    results for every input, whatever TEMP is. *)
Theorem RawDataProcess_compensation_off
  (dev : MS5611_Device_t) (D1 D2 : Z) :
  MS5611_RawDataProcess dev D1 D2 0
  = Spec.first_order (C (config dev)) D1 D2
      lit_4_76837158205Em7 lit_3_051757813Em5.
Proof. rewrite RawDataProcess_cases. reflexivity. Qed.

(** ** Bytes, words and statuses *)

Lemma byte_val_range (b : byte) : 0 <= byte_val b < 256.
Proof.
  unfold byte_val. pose proof (Byte.to_N_bounded b) as H. lia.
Qed.

Lemma buf_at_range (data : list byte) (i : nat) : 0 <= buf_at data i < 256.
Proof. apply byte_val_range. Qed.

(** Shifting left by [n] and or-ing in a value below [2^n] is addition. *)
Lemma lor_shiftl_add (a b n : Z) :
  0 <= n -> 0 <= b < 2 ^ n -> Z.lor (Z.shiftl a n) b = a * 2 ^ n + b.
Proof.
  intros Hn Hb.
  assert (Hland : Z.land (Z.shiftl a n) b = 0).
  { apply Z.bits_inj'. intros i Hi.
    rewrite Z.land_spec, Z.bits_0.
    destruct (Z.lt_ge_cases i n) as [Hlow | Hhigh].
    - rewrite Z.shiftl_spec_low by exact Hlow. reflexivity.
    - rewrite <- (Z.mod_small b (2 ^ n)) by exact Hb.
      rewrite Z.mod_pow2_bits_high by lia.
      apply andb_false_r. }
  rewrite <- Z.lxor_lor by exact Hland.
  rewrite <- Z.add_nocarry_lxor by exact Hland.
  rewrite Z.shiftl_mul_pow2 by exact Hn. reflexivity.
Qed.

Lemma word16_of_buffer (data : list byte) :
  to_uint16 (Z.lor (Z.shiftl (buf_at data 0) 8) (buf_at data 1)) = Spec.be16 data.
Proof.
  pose proof (buf_at_range data 0) as H0.
  pose proof (buf_at_range data 1) as H1.
  rewrite lor_shiftl_add by lia.
  unfold to_uint16, Spec.be16. rewrite Z.mod_small; lia.
Qed.

Lemma word24_of_buffer (data : list byte) :
  Z.lor (Z.lor (Z.shiftl (buf_at data 0) 16) (Z.shiftl (buf_at data 1) 8)) (buf_at data 2)
  = Spec.be24 data.
Proof.
  pose proof (buf_at_range data 0) as H0.
  pose proof (buf_at_range data 1) as H1.
  pose proof (buf_at_range data 2) as H2.
  replace (Z.shiftl (buf_at data 0) 16) with (Z.shiftl (Z.shiftl (buf_at data 0) 8) 8)
    by (rewrite Z.shiftl_shiftl by lia; reflexivity).
  rewrite <- Z.shiftl_lor.
  rewrite (lor_shiftl_add (buf_at data 0)) by lia.
  rewrite lor_shiftl_add by lia.
  unfold Spec.be24. ring.
Qed.

Lemma be24_range (data : list byte) : 0 <= Spec.be24 data < 2 ^ 24.
Proof.
  pose proof (buf_at_range data 0). pose proof (buf_at_range data 1).
  pose proof (buf_at_range data 2). unfold Spec.be24. lia.
Qed.

Lemma to_int8_range (z : Z) : -128 <= to_int8 z <= 127.
Proof.
  unfold to_int8. pose proof (Z.mod_pos_bound (z + 128) 256). lia.
Qed.

Lemma to_int8_small (z : Z) : -128 <= z <= 127 -> to_int8 z = z.
Proof.
  intros H. unfold to_int8. rewrite Z.mod_small; lia.
Qed.

(** A value is an [int8_t] exactly when its bits from position 7 on are all
    equal, that is when its arithmetic shift by 7 is 0 or -1. *)
Lemma int8_shiftr (z : Z) : -128 <= z <= 127 <-> -1 <= Z.shiftr z 7 <= 0.
Proof.
  rewrite Z.shiftr_div_pow2 by lia. change (2 ^ 7) with 128.
  pose proof (Z.div_mod z 128 ltac:(lia)) as Hd.
  pose proof (Z.mod_pos_bound z 128 ltac:(lia)) as Hm.
  lia.
Qed.

Lemma lor_int8 (a b : Z) :
  -128 <= a <= 127 -> -128 <= b <= 127 -> -128 <= Z.lor a b <= 127.
Proof.
  intros Ha Hb. apply int8_shiftr in Ha, Hb. apply int8_shiftr.
  rewrite Z.shiftr_lor.
  assert (Ea : Z.shiftr a 7 = -1 \/ Z.shiftr a 7 = 0) by lia.
  assert (Eb : Z.shiftr b 7 = -1 \/ Z.shiftr b 7 = 0) by lia.
  destruct Ea as [-> | ->], Eb as [-> | ->]; simpl; lia.
Qed.

(** [rslt |= r] on statuses: no bit is lost by the conversion back to
    [int8_t]. *)
Lemma status_or (a b : Z) :
  -128 <= a <= 127 -> -128 <= b <= 127 -> to_int8 (Z.lor a b) = Z.lor a b.
Proof.
  intros Ha Hb. apply to_int8_small. apply lor_int8; assumption.
Qed.

(** ** Calibration loader *)

Lemma InitConstants_coefficients (dev : MS5611_Device_t) (mathMode : Z) :
  C (config (MS5611_InitConstants dev mathMode)) = base_constants mathMode.
Proof.
  unfold MS5611_InitConstants, base_constants.
  destruct (mathMode =? 0); reflexivity.
Qed.

(** For the registers of the loader the address does not wrap and the word
    is the big-endian value of the two bytes. *)
Lemma ReadPROM_read_slot (dev : MS5611_Device_t) (reg : Z) (h : history) :
  0 <= reg <= 6 -> MS5611_ReadPROM dev reg h = Spec.read_slot (bus dev) h reg.
Proof.
  intros Hreg. unfold MS5611_ReadPROM, Spec.read_slot.
  replace (to_uint8 (MS5611_CMD_READ_PROM + reg * 2)) with (Spec.prom_address reg).
  2:{ unfold to_uint8, Spec.prom_address, MS5611_CMD_READ_PROM.
      rewrite Z.mod_small; lia. }
  destruct (dev_read (bus dev) h (Spec.prom_address reg) 2) as [[st data] h'].
  rewrite word16_of_buffer. reflexivity.
Qed.

Lemma PROM_loop_step (reg : Z) (regs : list Z) (dev : MS5611_Device_t)
      (h : history) (rslt : Z) :
  MS5611_PROM_loop (reg :: regs) dev h rslt
  = MS5611_PROM_loop regs
      (PROM_store dev reg (fst (MS5611_ReadPROM dev reg h)))
      (snd (MS5611_ReadPROM dev reg h))
      (PROM_flag reg (fst (MS5611_ReadPROM dev reg h)) rslt).
Proof.
  simpl. destruct (MS5611_ReadPROM dev reg h) as [tmp h']. reflexivity.
Qed.

(** The loop never leaves early: whatever is read, it runs once for every
    register of the list and each run appends one read to the history. *)
Lemma PROM_loop_length (regs : list Z) :
  forall (dev : MS5611_Device_t) (h : history) (rslt : Z),
    length (snd (MS5611_PROM_loop regs dev h rslt)) = (length h + length regs)%nat.
Proof.
  induction regs as [|reg regs IH]; intros dev h rslt.
  - simpl. lia.
  - rewrite PROM_loop_step, IH.
    unfold MS5611_ReadPROM, dev_read.
    destruct (bus_read _ _ _ _) as [st data]. simpl.
    rewrite length_app. simpl. lia.
Qed.

(** The loop only touches the coefficients. *)
Lemma PROM_loop_frame (regs : list Z) :
  forall (dev : MS5611_Device_t) (h : history) (rslt : Z),
    let dev' := snd (fst (MS5611_PROM_loop regs dev h rslt)) in
    bus dev' = bus dev /\ intf_type dev' = intf_type dev /\
    osRate (config dev') = osRate (config dev) /\ ct (config dev') = ct (config dev).
Proof.
  induction regs as [|reg regs IH]; intros dev h rslt.
  - simpl. auto.
  - rewrite PROM_loop_step.
    destruct (IH (PROM_store dev reg (fst (MS5611_ReadPROM dev reg h)))
                 (snd (MS5611_ReadPROM dev reg h))
                 (PROM_flag reg (fst (MS5611_ReadPROM dev reg h)) rslt))
      as (Hb & Hi & Ho & Hc).
    cbv zeta in *. rewrite Hb, Hi, Ho, Hc. simpl. auto.
Qed.


Lemma PROM_loop_cons (reg : Z) (regs : list Z) (dev : MS5611_Device_t)
      (h : history) (rslt : Z) :
  0 <= reg <= 6 ->
  MS5611_PROM_loop (reg :: regs) dev h rslt
  = MS5611_PROM_loop regs
      (PROM_store dev reg (fst (Spec.read_slot (bus dev) h reg)))
      (snd (Spec.read_slot (bus dev) h reg))
      (PROM_flag reg (fst (Spec.read_slot (bus dev) h reg)) rslt).
Proof.
  intros Hreg. rewrite PROM_loop_step, ReadPROM_read_slot by exact Hreg. reflexivity.
Qed.

Lemma PROM_store_bus (dev : MS5611_Device_t) (reg w : Z) :
  bus (PROM_store dev reg w) = bus dev.
Proof. reflexivity. Qed.

(** Closed form of the loader: status, coefficients and history. *)
Lemma PROM_closed_form (dev : MS5611_Device_t) (h : history) :
  MS5611_PROM dev h
  = (PROM_status (bus dev) h,
     set_config dev {| osRate := osRate (config dev); ct := ct (config dev);
                       C := PROM_coefficients (C (config dev)) (bus dev) h |},
     PROM_history 7 (bus dev) h).
Proof.
  unfold MS5611_PROM, PROM_regs.
  do 7 (rewrite PROM_loop_cons by lia; rewrite ?PROM_store_bus).
  cbn [MS5611_PROM_loop].
  unfold PROM_status, PROM_coefficients.
  cbv [PROM_word existsb PROM_history Z.to_nat Pos.to_nat Pos.iter_op Nat.add
       Z.of_nat Pos.of_succ_nat Pos.succ].
  f_equal. f_equal.
  unfold PROM_flag. cbn [Z.ltb Z.compare andb].
  repeat match goal with
         | |- context [?w =? 0] => destruct (w =? 0)
         end; reflexivity.
Qed.

(** The status is failure exactly when a word of the slots 1 to 6 is zero. *)
Lemma PROM_status_nonzero (b : transport) (h : history) :
  PROM_status b h <> 0 <-> exists j, 1 <= j <= 6 /\ PROM_word b h j = 0.
Proof.
  unfold PROM_status.
  destruct (existsb _ _) eqn:He.
  - split; [intros _ | intros _; discriminate].
    apply existsb_exists in He. destruct He as (j & Hin & Hz).
    exists j. split; [|apply Z.eqb_eq; exact Hz].
    simpl in Hin. lia.
  - split; [intros Hne; now elim Hne|].
    intros (j & Hj & Hz). exfalso.
    assert (Hex : existsb (fun k => PROM_word b h k =? 0) [1; 2; 3; 4; 5; 6] = true).
    { apply existsb_exists. exists j. split; [simpl; lia | apply Z.eqb_eq; exact Hz]. }
    congruence.
Qed.

(** Each step of the loader's history is one 2-byte read at the slot's
    address, and the slot's word is the big-endian value of its bytes. *)
Lemma PROM_history_step (b : transport) (h : history) (k : nat) :
  let hk := PROM_history k b h in
  let rd := bus_read b hk (Spec.prom_address (Z.of_nat k)) 2 in
  PROM_history (S k) b h
  = hk ++ [EvRead (Spec.prom_address (Z.of_nat k)) 2 (to_int8 (fst rd)) (snd rd)]
  /\ PROM_word b h (Z.of_nat k) = Spec.be16 (snd rd).
Proof.
  cbv zeta. unfold PROM_word. rewrite Nat2Z.id.
  cbn [PROM_history]. unfold Spec.read_slot, dev_read.
  destruct (bus_read b (PROM_history k b h) (Spec.prom_address (Z.of_nat k)) 2)
    as [st data].
  split; reflexivity.
Qed.

Lemma PROM_coefficients_get (c : coefficients) (b : transport) (h : history) (k : Z) :
  0 <= k <= 6 ->
  C_get (PROM_coefficients c b h) k = F32.mul (C_get c k) (F32.of_Z (PROM_word b h k)).
Proof.
  intros Hk.
  assert (Hc : k = 0 \/ k = 1 \/ k = 2 \/ k = 3 \/ k = 4 \/ k = 5 \/ k = 6) by lia.
  destruct Hc as [-> | [-> | [-> | [-> | [-> | [-> | ->]]]]]]; reflexivity.
Qed.

(** C3: for every slot k of the loader, whatever the reads return: the
    loader performs a 2-byte read at 0xA0 + 2k, the slot's word is the
    big-endian value of the two bytes, and the slot ends up holding its
    previous content times that word, which on a handle whose base
    constants were just set is base constant k times the word; all seven
    reads are performed whatever the words are; and the status is nonzero
    exactly when the word of one of the slots 1 to 6 is zero. *)
Theorem PROM_loads_every_slot
  (dev : MS5611_Device_t) (mathMode : Z) (h : history) (k : nat) :
  (k <= 6)%nat ->
  let b := bus dev in
  let hk := PROM_history k b h in
  let rd := bus_read b hk (0xA0 + 2 * Z.of_nat k) 2 in
  let word := 256 * buf_at (snd rd) 0 + buf_at (snd rd) 1 in
  let run := MS5611_PROM dev h in
  let run_based := MS5611_PROM (MS5611_InitConstants dev mathMode) h in
  PROM_history (S k) b h
  = hk ++ [EvRead (0xA0 + 2 * Z.of_nat k) 2 (to_int8 (fst rd)) (snd rd)]
  /\ PROM_word b h (Z.of_nat k) = word
  /\ C_get (C (config (snd (fst run)))) (Z.of_nat k)
     = F32.mul (C_get (C (config dev)) (Z.of_nat k)) (F32.of_Z word)
  /\ C_get (C (config (snd (fst run_based)))) (Z.of_nat k)
     = F32.mul (C_get (base_constants mathMode) (Z.of_nat k)) (F32.of_Z word)
  /\ snd run = PROM_history 7 b h
  /\ length (snd run) = (length h + 7)%nat
  /\ (fst (fst run) <> 0 <-> exists j, 1 <= j <= 6 /\ PROM_word b h j = 0).
Proof.
  intros Hk. cbv zeta.
  destruct (PROM_history_step (bus dev) h k) as [Hstep Hword].
  change (0xA0 + 2 * Z.of_nat k) with (Spec.prom_address (Z.of_nat k)).
  fold (Spec.be16 (snd (bus_read (bus dev) (PROM_history k (bus dev) h)
                                 (Spec.prom_address (Z.of_nat k)) 2))).
  split; [exact Hstep|]. split; [exact Hword|].
  split; [|split; [|split; [|split]]].
  - rewrite PROM_closed_form. cbn [fst snd set_config config C].
    rewrite PROM_coefficients_get by lia. rewrite Hword. reflexivity.
  - rewrite PROM_closed_form. cbn [fst snd set_config config C].
    rewrite PROM_coefficients_get by lia.
    rewrite InitConstants_coefficients.
    change (bus (MS5611_InitConstants dev mathMode)) with (bus dev).
    rewrite Hword. reflexivity.
  - rewrite PROM_closed_form. reflexivity.
  - unfold MS5611_PROM. rewrite PROM_loop_length. reflexivity.
  - rewrite PROM_closed_form. apply PROM_status_nonzero.
Qed.

Lemma PROM_loads_every_slot_witness :
  (4 <= 6)%nat /\
  C_get (C (config (snd (fst (MS5611_PROM (based sensor_faulty) []))))) 4
  = F32.mul lit_7_8125Em3 (F32.of_Z 0) /\
  C_get (C (config (snd (fst (MS5611_PROM (based sensor_faulty) []))))) 5
  = F32.mul (F32.of_Z 256) (F32.of_Z 33464) /\
  fst (fst (MS5611_PROM (based sensor_faulty) [])) <> 0.
Proof.
  split; [lia|]. split; [|split].
  - exact (proj1 (proj2 (proj2
      (PROM_loads_every_slot (based sensor_faulty) 0 [] 4%nat ltac:(lia))))).
  - exact (proj1 (proj2 (proj2
      (PROM_loads_every_slot (based sensor_faulty) 0 [] 5%nat ltac:(lia))))).
  - apply (proj2 (proj2 (proj2 (proj2 (proj2 (proj2
      (PROM_loads_every_slot (based sensor_faulty) 0 [] 4%nat ltac:(lia)))))))).
    exists 4. split; [lia | vm_compute; reflexivity].
Defined.

Lemma float_eqb_eq (x y : float) : float_eqb x y = true -> x = y.
Proof.
  destruct x as [a | a | | a m e], y as [b | b | | b n f]; simpl;
    try discriminate; intros H.
  - apply Bool.eqb_prop in H. now subst.
  - apply Bool.eqb_prop in H. now subst.
  - reflexivity.
  - apply andb_prop in H. destruct H as [H He].
    apply andb_prop in H. destruct H as [Hs Hm].
    apply Bool.eqb_prop in Hs. apply Pos.eqb_eq in Hm. apply Z.eqb_eq in He.
    now subst.
Qed.

Lemma all_bits_spec (P : Z -> bool) (n : nat) :
  forall acc, all_bits n P acc = true ->
  forall z, acc * 2 ^ Z.of_nat n <= z < (acc + 1) * 2 ^ Z.of_nat n -> P z = true.
Proof.
  induction n as [|n IH]; intros acc Hall z Hz.
  - cbn [all_bits] in Hall. change (2 ^ Z.of_nat 0) with 1 in Hz.
    replace z with acc by lia. exact Hall.
  - cbn [all_bits] in Hall. apply andb_prop in Hall. destruct Hall as [Hlo Hhi].
    rewrite Nat2Z.inj_succ, Z.pow_succ_r in Hz by lia.
    destruct (Z_lt_le_dec z ((2 * acc + 1) * 2 ^ Z.of_nat n)) as [Hlt | Hge].
    + apply (IH (2 * acc)); [exact Hlo | lia].
    + apply (IH (2 * acc + 1)); [exact Hhi | lia].
Qed.

(** Multiplying 1.0f by a 16-bit word converted to [float] is exact. *)
Lemma one_times_word (w : Z) :
  0 <= w < 65536 -> F32.mul (F32.of_Z 1) (F32.of_Z w) = F32.of_Z w.
Proof.
  intros Hw. apply float_eqb_eq.
  apply (all_bits_spec
           (fun w => float_eqb (F32.mul (F32.of_Z 1) (F32.of_Z w)) (F32.of_Z w))
           16 0).
  - vm_compute. reflexivity.
  - change (2 ^ Z.of_nat 16) with 65536. lia.
Qed.

Lemma be16_range (data : list byte) : 0 <= Spec.be16 data < 65536.
Proof.
  pose proof (buf_at_range data 0). pose proof (buf_at_range data 1).
  unfold Spec.be16. lia.
Qed.

(** C4, as worded: refuted on the sensor of the worked example, whose PROM
    word 0 is 7: after the base constants are set and the loader has run,
    C[0] is 7.0 and not 1.0. *)
Lemma slot0_fixed_to_one_refuted :
  ~ (forall (dev : MS5611_Device_t) (mathMode : Z) (h : history),
        let dev1 := MS5611_InitConstants dev mathMode in
        C0 (C (config dev1)) = F32.of_Z 1 /\
        C0 (C (config (snd (fst (MS5611_PROM dev1 h))))) = F32.of_Z 1).
Proof.
  intros H.
  destruct (H (fresh sensor_datasheet) 0 []) as [_ Hload].
  vm_compute in Hload. discriminate Hload.
Qed.

(** C4, amended: after [MS5611_InitConstants] C[0] equals 1; the loader
    reads slot 0 as well (2 bytes at 0xA0) and multiplies C[0] by that
    word, so that after a run of the loader C[0] is its previous value
    times the word read at 0xA0, which after [MS5611_InitConstants] is
    that word itself. *)
Theorem slot0_holds_prom_word (dev : MS5611_Device_t) (mathMode : Z) (h : history) :
  let dev1 := MS5611_InitConstants dev mathMode in
  let rd := bus_read (bus dev) h 0xA0 2 in
  let word := 256 * buf_at (snd rd) 0 + buf_at (snd rd) 1 in
  C0 (C (config dev1)) = F32.of_Z 1
  /\ C0 (C (config (snd (fst (MS5611_PROM dev h)))))
     = F32.mul (C0 (C (config dev))) (F32.of_Z word)
  /\ C0 (C (config (snd (fst (MS5611_PROM dev1 h))))) = F32.of_Z word.
Proof.
  cbv zeta.
  destruct (PROM_history_step (bus dev) h 0) as [_ Hword].
  cbn [PROM_history Z.of_nat] in Hword.
  change (Spec.prom_address 0) with 0xA0 in Hword.
  fold (Spec.be16 (snd (bus_read (bus dev) h 0xA0 2))).
  rewrite <- Hword.
  split; [|split].
  - rewrite InitConstants_coefficients. unfold base_constants.
    destruct (mathMode =? 0); reflexivity.
  - rewrite PROM_closed_form. reflexivity.
  - rewrite PROM_closed_form. cbn [fst snd set_config config C].
    rewrite InitConstants_coefficients.
    change (bus (MS5611_InitConstants dev mathMode)) with (bus dev).
    unfold PROM_coefficients. cbn [C0].
    replace (C0 (base_constants mathMode)) with (F32.of_Z 1)
      by (unfold base_constants; destruct (mathMode =? 0); reflexivity).
    apply one_times_word. rewrite Hword. apply be16_range.
Qed.

(** [MS5611_Init] is the loader run on the handle with the default rate and
    the base constants, after the reset write and the 20 ms delay. *)
Lemma Init_unfold (dev : MS5611_Device_t) (h : history) :
  MS5611_Init dev h
  = MS5611_PROM
      (MS5611_InitConstants (MS5611_SetOSRate dev MS5611_ULTRA_HIGH_RES) 0)
      (h ++ [EvWrite 0x1E 0 (to_int8 (bus_write (bus dev) h 0x1E 0)); EvDelay 20]).
Proof.
  unfold MS5611_Init, MS5611_Reset, dev_write, dev_delay.
  rewrite <- app_assoc. reflexivity.
Qed.

Lemma PROM_twice_same_words (j : Z) :
  0 <= j <= 6 ->
  PROM_word sensor_datasheet (snd (MS5611_PROM (based sensor_datasheet) [])) j
  = PROM_word sensor_datasheet [] j.
Proof.
  intros Hj.
  assert (Hc : j = 0 \/ j = 1 \/ j = 2 \/ j = 3 \/ j = 4 \/ j = 5 \/ j = 6) by lia.
  destruct Hc as [-> | [-> | [-> | [-> | [-> | [-> | ->]]]]]];
    vm_compute; reflexivity.
Qed.

(** C9: the loader multiplies in place, so it is not idempotent: for every
    coefficient state, when a second run reads for a slot the same word as
    the first, the slot ends up holding its original content multiplied
    twice by that word; on the worked example's sensor a second run changes
    the coefficients; and [MS5611_Init], which sets the base constants
    before it loads, yields the base constants times the words whatever the
    coefficients were before. *)
Theorem PROM_not_idempotent (dev : MS5611_Device_t) (h : history) (k : nat) :
  (k <= 6)%nat ->
  let b := bus dev in
  let run1 := MS5611_PROM dev h in
  let run2 := MS5611_PROM (snd (fst run1)) (snd run1) in
  let w := F32.of_Z (PROM_word b h (Z.of_nat k)) in
  let reset := EvWrite 0x1E 0 (to_int8 (bus_write b h 0x1E 0)) in
  (PROM_word b (snd run1) (Z.of_nat k) = PROM_word b h (Z.of_nat k) ->
   C_get (C (config (snd (fst run2)))) (Z.of_nat k)
   = F32.mul (F32.mul (C_get (C (config dev)) (Z.of_nat k)) w) w)
  /\ C (config (snd (fst (MS5611_Init dev h))))
     = PROM_coefficients (base_constants 0) b (h ++ [reset; EvDelay 20])
  /\ (exists dev0 h0,
         let first := MS5611_PROM dev0 h0 in
         let second := MS5611_PROM (snd (fst first)) (snd first) in
         (forall j, 0 <= j <= 6 ->
                    PROM_word (bus dev0) (snd first) j = PROM_word (bus dev0) h0 j) /\
         C (config (snd (fst second))) <> C (config (snd (fst first)))).
Proof.
  intros Hk. cbv zeta. split; [|split].
  - intros Hsame.
    rewrite (PROM_closed_form (snd (fst (MS5611_PROM dev h)))).
    cbn [fst snd set_config config C].
    rewrite PROM_coefficients_get by lia.
    rewrite (PROM_closed_form dev h).
    cbn [fst snd set_config config C bus].
    rewrite PROM_coefficients_get by lia.
    rewrite (PROM_closed_form dev h) in Hsame. cbn [snd] in Hsame.
    rewrite Hsame. reflexivity.
  - rewrite Init_unfold, PROM_closed_form.
    cbn [fst snd set_config config C].
    rewrite InitConstants_coefficients. reflexivity.
  - exists (based sensor_datasheet), [].
    cbv zeta. split.
    + exact PROM_twice_same_words.
    + vm_compute. discriminate.
Qed.

Lemma PROM_not_idempotent_witness :
  (2 <= 6)%nat /\
  C_get (C (config (snd (fst
    (MS5611_PROM (snd (fst (MS5611_PROM (based sensor_datasheet) [])))
                 (snd (MS5611_PROM (based sensor_datasheet) []))))))) 2
  = F32.mul (F32.mul (F32.of_Z 65536) (F32.of_Z 36924)) (F32.of_Z 36924).
Proof.
  split; [lia|].
  apply (proj1 (PROM_not_idempotent (based sensor_datasheet) [] 2%nat ltac:(lia))).
  vm_compute. reflexivity.
Defined.

(** ** Initialisation *)

(** C5: [MS5611_Init] has the effect of the steps in the order listed:
    reset command 0x1E, 20 ms delay, default rate ultra-high-res, base
    constants of the standard mode, calibration load.  The bus sees the
    reset write, the delay and the seven loader reads; the handle ends up
    at ultra-high-res with conversion time 10 and the base constants times
    the words; the status is the loader's, nonzero exactly when the word of
    one of the slots 1 to 6 is zero. *)
Theorem Init_sequence (dev : MS5611_Device_t) (h : history) :
  let b := bus dev in
  let reset := EvWrite 0x1E 0 (to_int8 (bus_write b h 0x1E 0)) in
  let h0 := h ++ [reset; EvDelay 20] in
  let run := MS5611_Init dev h in
  run = Init_as_specified dev h
  /\ snd run = PROM_history 7 b h0
  /\ length (snd run) = (length h + 9)%nat
  /\ osRate (config (snd (fst run))) = MS5611_ULTRA_HIGH_RES
  /\ ct (config (snd (fst run))) = 10
  /\ C (config (snd (fst run))) = PROM_coefficients (base_constants 0) b h0
  /\ fst (fst run) = PROM_status b h0
  /\ (fst (fst run) <> 0 <-> exists j, 1 <= j <= 6 /\ PROM_word b h0 j = 0).
Proof.
  cbv zeta.
  pose proof (Init_unfold dev h) as Hrun.
  split.
  { unfold Init_as_specified, MS5611_Init, MS5611_Reset, dev_delay. reflexivity. }
  split.
  { rewrite Hrun, PROM_closed_form. reflexivity. }
  split.
  { rewrite Hrun. unfold MS5611_PROM. rewrite PROM_loop_length, length_app.
    simpl. lia. }
  rewrite Hrun, PROM_closed_form. cbn [fst snd set_config config osRate ct C].
  split; [reflexivity|]. split; [reflexivity|].
  split; [rewrite InitConstants_coefficients; reflexivity|].
  split; [reflexivity|].
  apply PROM_status_nonzero.
Qed.

Lemma Init_sequence_witness :
  fst (fst (MS5611_Init (fresh sensor_faulty) [])) <> 0.
Proof.
  apply (proj2 (proj2 (proj2 (proj2 (proj2 (proj2 (proj2
    (Init_sequence (fresh sensor_faulty) [])))))))).
  exists 4. split; [lia | vm_compute; reflexivity].
Defined.

(** ** Sampling rate *)

(** C7: after [MS5611_SetOSRate dev r], [MS5611_GetOSRate] returns [r] and
    the conversion time is the entry of 1, 2, 3, 5, 10 at the ordinal of
    [r]; the call changes nothing else. *)
Theorem SetOSRate_roundtrip (dev : MS5611_Device_t) (r : MS5611_OSRate_t) :
  let dev' := MS5611_SetOSRate dev r in
  MS5611_GetOSRate dev' = r
  /\ ct (config dev') = nth (Z.to_nat (osr_ord r)) [1; 2; 3; 5; 10] 0
  /\ ct (config dev') = osrToConversitonTime (osRate (config dev'))
  /\ C (config dev') = C (config dev)
  /\ bus dev' = bus dev /\ intf_type dev' = intf_type dev.
Proof.
  cbv zeta. destruct r; repeat split.
Qed.

(** ** Measurement cycle *)

Lemma Convert_command (dev : MS5611_Device_t) (addr : Z) (h : history) :
  addr = MS5611_CMD_CONV_D1 \/ addr = MS5611_CMD_CONV_D2 ->
  MS5611_Convert dev addr h
  = dev_write (bus dev) h (Spec.convert_command addr (osRate (config dev))) 0.
Proof.
  intros Haddr. unfold MS5611_Convert, Spec.convert_command.
  replace (to_uint8 (addr + osr_ord (osRate (config dev)) * 2))
    with (addr + 2 * osr_ord (osRate (config dev))); [reflexivity|].
  destruct (osRate (config dev)), Haddr as [-> | ->]; reflexivity.
Qed.

Lemma AdcRead_be24 (dev : MS5611_Device_t) (h : history) :
  MS5611_AdcRead dev h
  = let '(st, data, h') := dev_read (bus dev) h MS5611_CMD_ADC_READ 3 in
    (st, Spec.be24 data, h').
Proof.
  unfold MS5611_AdcRead.
  destruct (dev_read (bus dev) h MS5611_CMD_ADC_READ 3) as [[st data] h'].
  rewrite word24_of_buffer. reflexivity.
Qed.

Lemma dev_read_status_range (b : transport) (h : history) (reg len : Z) :
  -128 <= fst (fst (dev_read b h reg len)) <= 127.
Proof.
  unfold dev_read. destruct (bus_read b h reg len) as [st data].
  apply to_int8_range.
Qed.

Lemma sample_read (b : transport) (cfg : MS5611_Config_t) (h : history) (base : Z) :
  let rd := dev_read b
              (dev_delay b (dev_write b h (Spec.convert_command base (osRate cfg)) 0)
                         (ct cfg))
              MS5611_CMD_ADC_READ 3 in
  Spec.sample b cfg h base = (fst (fst rd), Spec.be24 (snd (fst rd)), snd rd).
Proof.
  cbv zeta. unfold Spec.sample.
  destruct (dev_read _ _ _ _) as [[st data] h']. reflexivity.
Qed.

Lemma sample_status_range (b : transport) (cfg : MS5611_Config_t) (h : history) (base : Z) :
  -128 <= fst (fst (Spec.sample b cfg h base)) <= 127.
Proof.
  rewrite sample_read. cbn [fst]. apply dev_read_status_range.
Qed.

Lemma sample_raw_range (b : transport) (cfg : MS5611_Config_t) (h : history) (base : Z) :
  0 <= snd (fst (Spec.sample b cfg h base)) < 2 ^ 24.
Proof.
  rewrite sample_read. cbn [fst snd]. apply be24_range.
Qed.

(** The cycle is two sequencer steps, the transform with compensation on,
    and the division by 100. *)
Lemma GetData_sequencer (dev : MS5611_Device_t) (h : history) :
  let s1 := Spec.sample (bus dev) (config dev) h MS5611_CMD_CONV_D1 in
  let s2 := Spec.sample (bus dev) (config dev) (snd s1) MS5611_CMD_CONV_D2 in
  MS5611_GetData dev h
  = (data <- MS5611_RawDataProcess dev (snd (fst s1)) (snd (fst s2)) 1 ;;
     Some (Z.lor (fst (fst s1)) (fst (fst s2)),
           F32.div (F32.of_Z (temperature data)) (F32.of_Z 100),
           F32.div (F32.of_Z (pressure data)) (F32.of_Z 100),
           snd s2)).
Proof.
  cbv zeta.
  pose proof (sample_status_range (bus dev) (config dev) h MS5611_CMD_CONV_D1) as R1.
  pose proof (sample_status_range (bus dev) (config dev)
                (snd (Spec.sample (bus dev) (config dev) h MS5611_CMD_CONV_D1))
                MS5611_CMD_CONV_D2) as R2.
  revert R1 R2.
  unfold MS5611_GetData, Spec.sample.
  rewrite !Convert_command by auto. rewrite !AdcRead_be24.
  destruct (dev_read (bus dev) _ MS5611_CMD_ADC_READ 3) as [[st1 data1] h1].
  cbn [fst snd].
  rewrite !Convert_command by auto. rewrite !AdcRead_be24.
  destruct (dev_read (bus dev) _ MS5611_CMD_ADC_READ 3) as [[st2 data2] h2].
  cbn [fst snd]. intros R1 R2.
  change (Z.lor MS5611_OK st1) with st1.
  rewrite (to_int8_small st1) by exact R1.
  rewrite status_or by assumption.
  reflexivity.
Qed.

(** The cycle spelled out on the bus: convert write, delay, 3-byte read,
    twice; then the transform and the division by 100. *)
Lemma GetData_events (dev : MS5611_Device_t) (h : history) :
  let b := bus dev in
  let cmd1 := 0x40 + 2 * osr_ord (osRate (config dev)) in
  let cmd2 := 0x50 + 2 * osr_ord (osRate (config dev)) in
  let h1 := h ++ [EvWrite cmd1 0 (to_int8 (bus_write b h cmd1 0));
                  EvDelay (ct (config dev))] in
  let rd1 := bus_read b h1 0 3 in
  let h2 := h1 ++ [EvRead 0 3 (to_int8 (fst rd1)) (snd rd1)] in
  let h3 := h2 ++ [EvWrite cmd2 0 (to_int8 (bus_write b h2 cmd2 0));
                   EvDelay (ct (config dev))] in
  let rd2 := bus_read b h3 0 3 in
  let h4 := h3 ++ [EvRead 0 3 (to_int8 (fst rd2)) (snd rd2)] in
  MS5611_GetData dev h
  = match MS5611_RawDataProcess dev (Spec.be24 (snd rd1)) (Spec.be24 (snd rd2)) 1 with
    | Some data =>
        Some (Z.lor (to_int8 (fst rd1)) (to_int8 (fst rd2)),
              F32.div (F32.of_Z (temperature data)) (F32.of_Z 100),
              F32.div (F32.of_Z (pressure data)) (F32.of_Z 100),
              h4)
    | None => None
    end.
Proof.
  cbv zeta.
  rewrite GetData_sequencer. cbv zeta.
  unfold Spec.sample, Spec.convert_command, dev_read, dev_write, dev_delay.
  change MS5611_CMD_CONV_D1 with 0x40. change MS5611_CMD_CONV_D2 with 0x50.
  change MS5611_CMD_ADC_READ with 0.
  rewrite <- !app_assoc. cbn [app].
  destruct (bus_read (bus dev) _ 0 3) as [s1 d1]. cbn [fst snd].
  rewrite <- !app_assoc. cbn [app].
  destruct (bus_read (bus dev) _ 0 3) as [s2 d2]. cbn [fst snd].
  destruct (MS5611_RawDataProcess dev _ _ 1) as [data|]; cbn [obind];
    [|reflexivity].
  rewrite <- !app_assoc. reflexivity.
Qed.





(** ** A new handle *)

Lemma digits2_pos_bound (p : positive) :
  forall n : Z, 0 <= n -> Zpos p < 2 ^ n -> Zpos (digits2_pos p) <= n.
Proof.
  assert (Hpos : forall q n, 0 <= n -> Zpos q < 2 ^ n -> 0 < n).
  { intros q n Hn Hq. destruct (Z.eq_dec n 0) as [-> | Hne]; [simpl in Hq|]; lia. }
  induction p as [p IH | p IH |]; intros n Hn Hp;
    pose proof (Hpos _ n Hn Hp) as Hn0; cbn [digits2_pos];
    rewrite ?Pos2Z.inj_succ; [| |lia];
    specialize (IH (n - 1) ltac:(lia));
    replace n with (Z.succ (n - 1)) in Hp by lia;
    rewrite Z.pow_succ_r in Hp by lia; lia.
Qed.

Lemma digits2_pos_iter_xO (p k : positive) :
  digits2_pos (Pos.iter xO p k) = (digits2_pos p + k)%positive.
Proof.
  induction k as [|k IH] using Pos.peano_ind.
  - simpl. lia.
  - rewrite Pos.iter_succ. cbn [digits2_pos]. rewrite IH. lia.
Qed.

(** A positive value below 2^24 converts to [float] without rounding: a
    finite, positive float. *)
Lemma F32_of_Z_exact (p : positive) :
  Zpos p < 2 ^ 24 -> exists m e, F32.of_Z (Zpos p) = S754_finite false m e.
Proof.
  intros Hp.
  pose proof (digits2_pos_bound p 24 ltac:(lia) Hp) as Hd.
  unfold F32.of_Z, binary_normalize, binary_round.
  set (d := digits2_pos p) in *.
  assert (Hfexp : fexp F32.prec F32.emax (Zpos d + 0) = Zpos d - 24).
  { unfold fexp, emin, F32.prec, F32.emax. lia. }
  rewrite Hfexp.
  assert (Haux : forall mz ez, Zpos (digits2_pos mz) = 24 -> -23 <= ez <= 0 ->
            binary_round_aux F32.prec F32.emax false (Zpos mz) ez loc_Exact
            = S754_finite false mz ez).
  { intros mz ez Hmz Hez.
    unfold binary_round_aux, shr_fexp. cbn [Zdigits2 shr_record_of_loc].
    rewrite Hmz.
    assert (Hz : fexp F32.prec F32.emax (24 + ez) - ez = 0).
    { unfold fexp, emin, F32.prec, F32.emax. lia. }
    rewrite Hz. cbn [shr shr_m loc_of_shr_record round_nearest_even Zdigits2
                     shr_record_of_loc].
    rewrite Hmz, Hz. cbn [shr shr_m].
    replace (ez <=? F32.emax - F32.prec) with true
      by (symmetry; apply Z.leb_le; unfold F32.emax, F32.prec; lia).
    reflexivity. }
  unfold shl_align.
  destruct (Zpos d - 24 - 0) as [|q|q] eqn:Hq.
  - exists p, 0. apply Haux; [fold d; lia | lia].
  - lia.
  - exists (Pos.iter xO p q), (Zpos d - 24). apply Haux.
    + rewrite digits2_pos_iter_xO. fold d. lia.
    + lia.
Qed.

Lemma F32_of_raw (z : Z) :
  0 <= z < 2 ^ 24 ->
  F32.of_Z z = S754_zero false \/ exists m e, F32.of_Z z = S754_finite false m e.
Proof.
  intros Hz. destruct z as [|p|p]; [left; reflexivity | right | lia].
  apply F32_of_Z_exact. lia.
Qed.

(** With all coefficients zero the transform yields 20.00 degrees C and
    0.00 mbar for every 24-bit sample pair. *)
Lemma RawDataProcess_fresh (b : transport) (ty : MS5611_Intf_e) (D1 D2 : Z) :
  0 <= D1 < 2 ^ 24 -> 0 <= D2 < 2 ^ 24 ->
  MS5611_RawDataProcess (MS5611_NewDevice b ty) D1 D2 1
  = Some {| temperature := 2000; pressure := 0 |}.
Proof.
  intros H1 H2.
  unfold MS5611_RawDataProcess, pressure_of.
  cbn [MS5611_NewDevice config C C_get zero_coefficients C1 C2 C3 C4 C5 C6].
  destruct (F32_of_raw D1 H1) as [-> | (m1 & e1 & ->)];
    destruct (F32_of_raw D2 H2) as [-> | (m2 & e2 & ->)];
    vm_compute; reflexivity.
Qed.

(** C10: whatever the arguments, the handle returned by [MS5611_NewDevice]
    has sampling rate ultra-low-power (ordinal 0), conversion time 0 and
    seven zero coefficients, so its conversion time is not the table value
    of its rate; a cycle run on it waits 0 ms after each convert command
    (and yields 20.00 degrees C and 0.00 mbar whatever is read). *)
Theorem NewDevice_zero_config (b : transport) (ty : MS5611_Intf_e) (h : history) :
  let dev := MS5611_NewDevice b ty in
  let h1 := h ++ [EvWrite 0x40 0 (to_int8 (bus_write b h 0x40 0)); EvDelay 0] in
  let rd1 := bus_read b h1 0 3 in
  let h2 := h1 ++ [EvRead 0 3 (to_int8 (fst rd1)) (snd rd1)] in
  let h3 := h2 ++ [EvWrite 0x50 0 (to_int8 (bus_write b h2 0x50 0)); EvDelay 0] in
  let rd2 := bus_read b h3 0 3 in
  let h4 := h3 ++ [EvRead 0 3 (to_int8 (fst rd2)) (snd rd2)] in
  MS5611_GetOSRate dev = MS5611_ULTRA_LOW_POWER
  /\ osr_ord (osRate (config dev)) = 0
  /\ ct (config dev) = 0
  /\ C (config dev)
     = {| C0 := S754_zero false; C1 := S754_zero false; C2 := S754_zero false;
          C3 := S754_zero false; C4 := S754_zero false; C5 := S754_zero false;
          C6 := S754_zero false |}
  /\ ct (config dev) <> osrToConversitonTime (osRate (config dev))
  /\ MS5611_GetData dev h
     = Some (Z.lor (to_int8 (fst rd1)) (to_int8 (fst rd2)),
             F32.of_Z 20, S754_zero false, h4).
Proof.
  cbv zeta.
  split; [reflexivity|]. split; [reflexivity|]. split; [reflexivity|].
  split; [reflexivity|]. split; [discriminate|].
  rewrite GetData_events. cbv zeta.
  cbn [MS5611_NewDevice bus config osRate ct osr_ord].
  rewrite RawDataProcess_fresh by apply be24_range.
  reflexivity.
Qed.

Example GetData_faulty_reads :
  let dev := snd (fst (MS5611_Init (fresh sensor_datasheet) [])) in
  let dev_bad := set_config (fresh sensor_faulty) (config dev) in
  option_map fst (MS5611_GetData dev [])
  = Some (0, S754_finite false 10522460 (-19), S754_finite false 16385475 (-14))
  /\ option_map fst (MS5611_GetData dev_bad [])
     = Some (-1, S754_finite false 10522460 (-19), S754_finite false 16385475 (-14)).
Proof. split; vm_compute; reflexivity. Qed.

(** * Further properties of the driver *)

(** ** Raw values read from the bus *)

Lemma Pos_iter_xO_Z (p q : positive) :
  Zpos (Pos.iter xO p q) = Zpos p * 2 ^ Zpos q.
Proof.
  induction q as [|q IH] using Pos.peano_ind.
  - simpl. lia.
  - rewrite Pos.iter_succ, Pos2Z.inj_xO, IH, Pos2Z.inj_succ, Z.pow_succ_r by lia.
    ring.
Qed.

(** The float of a positive value below 2^24, spelled out: the value itself
    with exponent 0, or shifted left to 24 bits with the opposite exponent. *)
Lemma F32_of_Z_form (p : positive) :
  Zpos p < 2 ^ 24 ->
  F32.of_Z (Zpos p) = S754_finite false p 0
  \/ exists q, F32.of_Z (Zpos p) = S754_finite false (Pos.iter xO p q) (Zneg q).
Proof.
  intros Hp.
  pose proof (digits2_pos_bound p 24 ltac:(lia) Hp) as Hd.
  unfold F32.of_Z, binary_normalize, binary_round.
  set (d := digits2_pos p) in *.
  assert (Hfexp : fexp F32.prec F32.emax (Zpos d + 0) = Zpos d - 24).
  { unfold fexp, emin, F32.prec, F32.emax. lia. }
  rewrite Hfexp.
  assert (Haux : forall mz ez, Zpos (digits2_pos mz) = 24 -> -23 <= ez <= 0 ->
            binary_round_aux F32.prec F32.emax false (Zpos mz) ez loc_Exact
            = S754_finite false mz ez).
  { intros mz ez Hmz Hez.
    unfold binary_round_aux, shr_fexp. cbn [Zdigits2 shr_record_of_loc].
    rewrite Hmz.
    assert (Hz : fexp F32.prec F32.emax (24 + ez) - ez = 0).
    { unfold fexp, emin, F32.prec, F32.emax. lia. }
    rewrite Hz. cbn [shr shr_m loc_of_shr_record round_nearest_even Zdigits2
                     shr_record_of_loc].
    rewrite Hmz, Hz. cbn [shr shr_m].
    replace (ez <=? F32.emax - F32.prec) with true
      by (symmetry; apply Z.leb_le; unfold F32.emax, F32.prec; lia).
    reflexivity. }
  unfold shl_align.
  destruct (Zpos d - 24 - 0) as [|q|q] eqn:Hq.
  - left. apply Haux; [fold d; lia | lia].
  - lia.
  - right. exists q. replace (Zpos d - 24) with (Zneg q) by lia. apply Haux.
    + rewrite digits2_pos_iter_xO. fold d. lia.
    + lia.
Qed.

(** Integers below 2^24 convert to [float] without rounding. *)
Lemma F32_of_Z_exact_value (z : Z) :
  0 <= z < 2 ^ 24 -> float_scaled (F32.of_Z z) 0 = Some z.
Proof.
  intros Hz. destruct z as [|p|p]; [reflexivity | | lia].
  destruct (F32_of_Z_form p ltac:(lia)) as [-> | (q & ->)].
  - cbn [float_scaled cond_Zopp]. change (0 <=? 0 + 0) with true. cbn iota.
    f_equal. change (2 ^ (0 + 0)) with 1. lia.
  - cbn [float_scaled cond_Zopp].
    replace (0 <=? Zneg q + 0) with false by (symmetry; apply Z.leb_gt; lia).
    replace (- (Zneg q + 0)) with (Zpos q) by lia.
    rewrite Pos_iter_xO_Z.
    rewrite Z.mod_mul by lia. cbn [Z.eqb].
    rewrite Z.div_mul by lia. reflexivity.
Qed.

(** X1: whatever the transport delivers, [MS5611_AdcRead] performs one 3-byte
    read at 0x00 and passes its status on; the raw value is the big-endian
    number of the three bytes, lies in [0, 2^24), and converts to [float]
    exactly. *)
Theorem AdcRead_sample (dev : MS5611_Device_t) (h : history) :
  let r := MS5611_AdcRead dev h in
  let rd := bus_read (bus dev) h 0 3 in
  fst (fst r) = to_int8 (fst rd)
  /\ snd r = h ++ [EvRead 0 3 (to_int8 (fst rd)) (snd rd)]
  /\ snd (fst r)
     = 65536 * buf_at (snd rd) 0 + 256 * buf_at (snd rd) 1 + buf_at (snd rd) 2
  /\ 0 <= snd (fst r) < 2 ^ 24
  /\ float_scaled (F32.of_Z (snd (fst r))) 0 = Some (snd (fst r)).
Proof.
  cbv zeta. rewrite AdcRead_be24. unfold dev_read.
  change MS5611_CMD_ADC_READ with 0.
  destruct (bus_read (bus dev) h 0 3) as [st data]. cbn [fst snd].
  pose proof (be24_range data) as Hr.
  repeat split; try reflexivity; try apply Hr.
  apply F32_of_Z_exact_value. exact Hr.
Qed.

(** X2: for every register index, [MS5611_ReadPROM] performs one 2-byte read
    at (0xA0 + 2*reg) mod 256, which is 0xA0 + 2*reg up to index 47 and
    wraps to the ADC address 0x00 at index 48; the result is the big-endian
    word of the two bytes whatever the read's status, lies in [0, 65536),
    and converts to [float] exactly. *)
Theorem ReadPROM_word (dev : MS5611_Device_t) (reg : Z) (h : history) :
  let r := MS5611_ReadPROM dev reg h in
  let addr := (0xA0 + 2 * reg) mod 256 in
  let rd := bus_read (bus dev) h addr 2 in
  snd r = h ++ [EvRead addr 2 (to_int8 (fst rd)) (snd rd)]
  /\ fst r = 256 * buf_at (snd rd) 0 + buf_at (snd rd) 1
  /\ 0 <= fst r < 65536
  /\ float_scaled (F32.of_Z (fst r)) 0 = Some (fst r)
  /\ (0 <= reg <= 47 -> addr = 0xA0 + 2 * reg)
  /\ (reg = 48 -> addr = MS5611_CMD_ADC_READ).
Proof.
  cbv zeta. unfold MS5611_ReadPROM, dev_read, to_uint8.
  change MS5611_CMD_READ_PROM with 0xA0.
  replace (0xA0 + reg * 2) with (0xA0 + 2 * reg) by ring.
  destruct (bus_read (bus dev) h ((0xA0 + 2 * reg) mod 256) 2) as [st data].
  cbn [fst snd]. rewrite word16_of_buffer.
  pose proof (be16_range data) as Hr.
  split; [reflexivity|]. split; [reflexivity|]. split; [exact Hr|].
  split; [apply F32_of_Z_exact_value; lia|].
  split.
  - intros Hreg. apply Z.mod_small. lia.
  - intros ->. reflexivity.
Qed.

Lemma ReadPROM_word_witness :
  (0xA0 + 2 * 6) mod 256 = 0xA0 + 2 * 6
  /\ fst (MS5611_ReadPROM (fresh sensor_datasheet) 6 []) = 28312.
Proof.
  split.
  - apply (proj1 (proj2 (proj2 (proj2 (proj2
      (ReadPROM_word (fresh sensor_datasheet) 6 [])))))). lia.
  - vm_compute. reflexivity.
Defined.

(** ** Commands *)

(** X3: [MS5611_Convert] performs one zero-length write at
    (addr + 2 * rate ordinal) mod 256 and nothing else; for a base of at
    most 247 the sum does not wrap; with the bases 0x40 and 0x50 the command
    lies in 0x40..0x48 and 0x50..0x58, so a pressure command never equals a
    temperature command, whatever the two rates. *)
Theorem Convert_command_byte (dev dev' : MS5611_Device_t) (addr : Z) (h : history) :
  let ord := osr_ord (osRate (config dev)) in
  let ord' := osr_ord (osRate (config dev')) in
  let cmd := (addr + 2 * ord) mod 256 in
  MS5611_Convert dev addr h
  = h ++ [EvWrite cmd 0 (to_int8 (bus_write (bus dev) h cmd 0))]
  /\ (0 <= addr <= 247 -> cmd = addr + 2 * ord)
  /\ 0x40 <= (0x40 + 2 * ord) mod 256 <= 0x48
  /\ 0x50 <= (0x50 + 2 * ord') mod 256 <= 0x58
  /\ (0x40 + 2 * ord) mod 256 <> (0x50 + 2 * ord') mod 256.
Proof.
  cbv zeta.
  assert (Ho : 0 <= osr_ord (osRate (config dev)) <= 4)
    by (destruct (osRate (config dev)); simpl; lia).
  assert (Ho' : 0 <= osr_ord (osRate (config dev')) <= 4)
    by (destruct (osRate (config dev')); simpl; lia).
  split.
  { unfold MS5611_Convert, dev_write, to_uint8.
    replace (addr + osr_ord (osRate (config dev)) * 2)
      with (addr + 2 * osr_ord (osRate (config dev))) by ring.
    reflexivity. }
  split.
  { intros Ha. apply Z.mod_small. lia. }
  rewrite !Z.mod_small by lia. lia.
Qed.

Lemma Convert_command_byte_witness :
  MS5611_Convert (calibrated prom_datasheet) 0x40 [] = [EvWrite 0x48 0 0].
Proof.
  exact (proj1 (Convert_command_byte (calibrated prom_datasheet)
                  (calibrated prom_datasheet) 0x40 [])).
Defined.

(** ** Sampling rate *)

(** X5: the conversion time set by [MS5611_SetOSRate] is between 1 and 10 ms
    for every rate, strictly increasing in the rate's ordinal, and a second
    call replaces the first whatever the two rates are. *)
Theorem SetOSRate_monotone (dev : MS5611_Device_t) (r1 r2 : MS5611_OSRate_t) :
  (osr_ord r1 < osr_ord r2 ->
   ct (config (MS5611_SetOSRate dev r1)) < ct (config (MS5611_SetOSRate dev r2)))
  /\ 1 <= ct (config (MS5611_SetOSRate dev r1)) <= 10
  /\ MS5611_SetOSRate (MS5611_SetOSRate dev r1) r2 = MS5611_SetOSRate dev r2.
Proof.
  split; [|split].
  - destruct r1, r2; cbn; lia.
  - destruct r1; cbn; lia.
  - destruct r1, r2; reflexivity.
Qed.

Lemma SetOSRate_monotone_witness :
  ct (config (MS5611_SetOSRate (fresh sensor_datasheet) MS5611_STANDARD))
  < ct (config (MS5611_SetOSRate (fresh sensor_datasheet) MS5611_HIGH_RES)).
Proof.
  apply (proj1 (SetOSRate_monotone
                  (fresh sensor_datasheet) MS5611_STANDARD MS5611_HIGH_RES)).
  simpl. lia.
Defined.

(** ** Bus footprint of the loader and of the initialisation *)

Lemma PROM_history_shape (b : transport) (h : history) (k : nat) :
  exists evs,
    PROM_history k b h = h ++ evs
    /\ map event_shape evs
       = map (fun i => EvRead (Spec.prom_address (Z.of_nat i)) 2 0 []) (seq 0 k).
Proof.
  induction k as [|k (evs & Hh & Hs)].
  - exists []. split; [symmetry; apply app_nil_r | reflexivity].
  - destruct (PROM_history_step b h k) as [Hstep _]. cbv zeta in Hstep.
    eexists. split.
    + rewrite Hstep, Hh, <- app_assoc. reflexivity.
    + rewrite map_app, Hs, seq_S, map_app. reflexivity.
Qed.

(** X6: whatever the transport answers, [MS5611_PROM] appends exactly seven
    bus accesses, the 2-byte reads at 0xA0, 0xA2, ..., 0xAC in this order:
    it never writes, never waits, and never reads the eighth PROM word at
    0xAE; its status is MS5611_OK or MS5611_ERROR; and it leaves the
    transport, the interface kind, the rate and the conversion time of the
    handle as they were. *)
Theorem PROM_footprint (dev : MS5611_Device_t) (h : history) :
  let r := MS5611_PROM dev h in
  (exists evs,
      snd r = h ++ evs
      /\ map event_shape evs
         = [EvRead 0xA0 2 0 []; EvRead 0xA2 2 0 []; EvRead 0xA4 2 0 [];
            EvRead 0xA6 2 0 []; EvRead 0xA8 2 0 []; EvRead 0xAA 2 0 [];
            EvRead 0xAC 2 0 []])
  /\ (fst (fst r) = MS5611_OK \/ fst (fst r) = MS5611_ERROR)
  /\ bus (snd (fst r)) = bus dev
  /\ intf_type (snd (fst r)) = intf_type dev
  /\ osRate (config (snd (fst r))) = osRate (config dev)
  /\ ct (config (snd (fst r))) = ct (config dev).
Proof.
  cbv zeta. rewrite PROM_closed_form. cbn [fst snd].
  split.
  { destruct (PROM_history_shape (bus dev) h 7) as (evs & Hh & Hs).
    exists evs. split; [exact Hh | exact Hs]. }
  split.
  { unfold PROM_status. destruct (existsb _ _); [right | left]; reflexivity. }
  repeat split.
Qed.

(** X7: [MS5611_Init] does not depend on the configuration the handle had:
    on any handle it yields what it yields on a new handle with the same
    transport and interface kind, so initialising again after an
    initialisation behaves like the first time.  On the bus it appends the
    reset write at 0x1E, the 20 ms delay and the seven loader reads, in
    this order, and nothing else. *)
Theorem Init_resets_handle (dev : MS5611_Device_t) (h h' : history) :
  MS5611_Init dev h = MS5611_Init (MS5611_NewDevice (bus dev) (intf_type dev)) h
  /\ MS5611_Init (snd (fst (MS5611_Init dev h))) h' = MS5611_Init dev h'
  /\ exists evs,
       snd (MS5611_Init dev h) = h ++ evs
       /\ map event_shape evs
          = [EvWrite 0x1E 0 0; EvDelay 20;
             EvRead 0xA0 2 0 []; EvRead 0xA2 2 0 []; EvRead 0xA4 2 0 [];
             EvRead 0xA6 2 0 []; EvRead 0xA8 2 0 []; EvRead 0xAA 2 0 [];
             EvRead 0xAC 2 0 []].
Proof.
  assert (Hfresh : forall d k,
             MS5611_Init d k = MS5611_Init (MS5611_NewDevice (bus d) (intf_type d)) k).
  { intros d k. rewrite !Init_unfold, !PROM_closed_form. reflexivity. }
  split; [apply Hfresh|]. split.
  { assert (Hb : bus (snd (fst (MS5611_Init dev h))) = bus dev)
      by (rewrite Init_unfold, PROM_closed_form; reflexivity).
    assert (Hi : intf_type (snd (fst (MS5611_Init dev h))) = intf_type dev)
      by (rewrite Init_unfold, PROM_closed_form; reflexivity).
    rewrite (Hfresh (snd (fst (MS5611_Init dev h))) h'), Hb, Hi.
    symmetry. apply Hfresh. }
  rewrite Init_unfold, PROM_closed_form. cbn [fst snd].
  change (bus (MS5611_InitConstants (MS5611_SetOSRate dev MS5611_ULTRA_HIGH_RES) 0))
    with (bus dev).
  destruct (PROM_history_shape (bus dev)
              (h ++ [EvWrite 0x1E 0 (to_int8 (bus_write (bus dev) h 0x1E 0));
                     EvDelay 20]) 7) as (evs & Hh & Hs).
  eexists. split.
  - rewrite Hh, <- app_assoc. reflexivity.
  - cbn [app map event_shape]. rewrite Hs. reflexivity.
Qed.

(** ** Exactness of the loaded coefficients *)

Lemma PROM_word_range (b : transport) (h : history) (k : Z) :
  0 <= PROM_word b h k < 65536.
Proof.
  unfold PROM_word, Spec.read_slot, dev_read.
  destruct (bus_read b _ _ 2) as [st data]. cbn [fst]. apply be16_range.
Qed.

Lemma float_scaled_is_spec (x : float) (k z : Z) :
  float_scaled_is x k z = true -> float_scaled x k = Some z.
Proof.
  unfold float_scaled_is. destruct (float_scaled x k) as [v|]; [|discriminate].
  intros H. apply Z.eqb_eq in H. now subst.
Qed.

(** Each base constant times a 16-bit word is computed without rounding;
    checked on the 65536 words. *)
Lemma base_times_word_exact (w : Z) :
  0 <= w < 65536 ->
  float_scaled (F32.mul (F32.of_Z 32768) (F32.of_Z w)) 0 = Some (w * 2 ^ 15)
  /\ float_scaled (F32.mul (F32.of_Z 65536) (F32.of_Z w)) 0 = Some (w * 2 ^ 16)
  /\ float_scaled (F32.mul (F32.of_Z 131072) (F32.of_Z w)) 0 = Some (w * 2 ^ 17)
  /\ float_scaled (F32.mul lit_3_90625Em3 (F32.of_Z w)) 8 = Some w
  /\ float_scaled (F32.mul lit_7_8125Em3 (F32.of_Z w)) 7 = Some w
  /\ float_scaled (F32.mul lit_1_5625Em2 (F32.of_Z w)) 6 = Some w
  /\ float_scaled (F32.mul (F32.of_Z 256) (F32.of_Z w)) 0 = Some (w * 2 ^ 8)
  /\ float_scaled (F32.mul lit_1_1920928955Em7 (F32.of_Z w)) 23 = Some w.
Proof.
  intros Hw.
  assert (Hall : all_bits 16
            (fun w =>
               float_scaled_is (F32.mul (F32.of_Z 32768) (F32.of_Z w)) 0 (w * 2 ^ 15)
               && float_scaled_is (F32.mul (F32.of_Z 65536) (F32.of_Z w)) 0 (w * 2 ^ 16)
               && float_scaled_is (F32.mul (F32.of_Z 131072) (F32.of_Z w)) 0 (w * 2 ^ 17)
               && float_scaled_is (F32.mul lit_3_90625Em3 (F32.of_Z w)) 8 w
               && float_scaled_is (F32.mul lit_7_8125Em3 (F32.of_Z w)) 7 w
               && float_scaled_is (F32.mul lit_1_5625Em2 (F32.of_Z w)) 6 w
               && float_scaled_is (F32.mul (F32.of_Z 256) (F32.of_Z w)) 0 (w * 2 ^ 8)
               && float_scaled_is (F32.mul lit_1_1920928955Em7 (F32.of_Z w)) 23 w)
            0 = true).
  { vm_compute. reflexivity. }
  pose proof (all_bits_spec _ 16 0 Hall w) as H.
  change (2 ^ Z.of_nat 16) with 65536 in H. specialize (H ltac:(lia)).
  cbv beta in H.
  repeat (apply andb_prop in H; destruct H as [H ?]).
  repeat split; apply float_scaled_is_spec; assumption.
Qed.

(** X8: after the base constants of a math mode are set and the loader has
    run (as in [MS5611_Init], mode 0), the six calibration coefficients hold
    exactly, without any rounding, the values the source's comments give:
    C[1] = word1 * 2^15, C[2] = word2 * 2^16, C[3] = word3 / 2^8,
    C[4] = word4 / 2^7, C[5] = word5 * 2^8, C[6] = word6 / 2^23, and twice
    that for C[1] to C[4] in the other math mode. *)
Theorem loaded_coefficients_exact
  (dev : MS5611_Device_t) (mathMode : Z) (h : history) :
  let c := C (config (snd (fst (MS5611_PROM (MS5611_InitConstants dev mathMode) h)))) in
  let w := PROM_word (bus dev) h in
  let s := mode_shift mathMode in
  float_scaled (C1 c) 0 = Some (w 1 * 2 ^ (15 + s))
  /\ float_scaled (C2 c) 0 = Some (w 2 * 2 ^ (16 + s))
  /\ float_scaled (C3 c) (8 - s) = Some (w 3)
  /\ float_scaled (C4 c) (7 - s) = Some (w 4)
  /\ float_scaled (C5 c) 0 = Some (w 5 * 2 ^ 8)
  /\ float_scaled (C6 c) 23 = Some (w 6).
Proof.
  cbv zeta. rewrite PROM_closed_form. cbn [fst snd set_config config C].
  rewrite InitConstants_coefficients.
  change (bus (MS5611_InitConstants dev mathMode)) with (bus dev).
  pose proof (fun k => base_times_word_exact _ (PROM_word_range (bus dev) h k)) as E.
  destruct (E 1) as (E1a & E1b & _).
  destruct (E 2) as (_ & E2a & E2b & _).
  destruct (E 3) as (_ & _ & _ & E3a & E3b & _).
  destruct (E 4) as (_ & _ & _ & _ & E4a & E4b & _).
  destruct (E 5) as (_ & _ & _ & _ & _ & _ & E5 & _).
  destruct (E 6) as (_ & _ & _ & _ & _ & _ & _ & E6).
  clear E.
  unfold base_constants, mode_shift, PROM_coefficients.
  destruct (mathMode =? 0); cbn [C1 C2 C3 C4 C5 C6].
  - split; [exact E1a|]. split; [exact E2a|]. split; [exact E3a|].
    split; [exact E4a|]. split; [exact E5 | exact E6].
  - split; [exact E1b|]. split; [exact E2b|]. split; [exact E3b|].
    split; [exact E4b|]. split; [exact E5 | exact E6].
Qed.

(** ** The transform *)

(** X9: [MS5611_RawDataProcess] reads C[1] to C[6] only, and of the flag only
    whether it is zero: handles that agree on these six coefficients give
    the same result whatever C[0], the rate, the conversion time and the
    transport are, and every nonzero flag acts alike. *)
Theorem RawDataProcess_frame
  (dev dev' : MS5611_Device_t) (D1 D2 compensation compensation' : Z) :
  C1 (C (config dev)) = C1 (C (config dev')) ->
  C2 (C (config dev)) = C2 (C (config dev')) ->
  C3 (C (config dev)) = C3 (C (config dev')) ->
  C4 (C (config dev)) = C4 (C (config dev')) ->
  C5 (C (config dev)) = C5 (C (config dev')) ->
  C6 (C (config dev)) = C6 (C (config dev')) ->
  (compensation = 0 <-> compensation' = 0) ->
  MS5611_RawDataProcess dev D1 D2 compensation
  = MS5611_RawDataProcess dev' D1 D2 compensation'.
Proof.
  intros H1 H2 H3 H4 H5 H6 Hc. rewrite !RawDataProcess_cases.
  replace (compensation' =? 0) with (compensation =? 0).
  2:{ destruct (Z.eqb_spec compensation 0) as [E | E],
        (Z.eqb_spec compensation' 0) as [E' | E']; try reflexivity.
      - now elim E'; apply Hc.
      - now elim E; apply Hc. }
  unfold Spec.second_order, Spec.first_order, Spec.TEMP, Spec.T2, Spec.OFFSET,
    Spec.SENS, Spec.dT.
  rewrite H1, H2, H3, H4, H5, H6. reflexivity.
Qed.

Lemma RawDataProcess_frame_witness :
  MS5611_RawDataProcess (calibrated prom_datasheet) 9085466 8569150 1
  = MS5611_RawDataProcess
      (MS5611_SetOSRate
         (set_config (fresh sensor_faulty)
            {| osRate := MS5611_LOW_POWER; ct := 0;
               C := C_set (C (config (calibrated prom_datasheet))) 0 S754_nan |})
         MS5611_STANDARD)
      9085466 8569150 (-128).
Proof.
  apply RawDataProcess_frame; try reflexivity. lia.
Defined.

Ltac split_binds H :=
  repeat match type of H with
         | context [obind ?x _] =>
             let E := fresh "E" in destruct x eqn:E; cbn [obind] in H
         | context [if ?b then _ else _] =>
             let E := fresh "E" in destruct b eqn:E
         end.

(** X10: the temperature of the result is computed from D2, C[5], C[6] and
    the flag alone: neither the pressure sample D1 nor C[1] to C[4] can
    change it. *)
Theorem RawDataProcess_temperature_path
  (dev dev' : MS5611_Device_t) (D1 D1' D2 compensation : Z) (d d' : MS5611_Data_t) :
  C5 (C (config dev)) = C5 (C (config dev')) ->
  C6 (C (config dev)) = C6 (C (config dev')) ->
  MS5611_RawDataProcess dev D1 D2 compensation = Some d ->
  MS5611_RawDataProcess dev' D1' D2 compensation = Some d' ->
  temperature d = temperature d'.
Proof.
  intros H5 H6 E1 E2. rewrite RawDataProcess_cases in E1, E2.
  assert (HT : Spec.TEMP (C (config dev)) D2 = Spec.TEMP (C (config dev')) D2)
    by (unfold Spec.TEMP, Spec.dT; rewrite H5, H6; reflexivity).
  assert (HT2 : forall k, Spec.T2 (C (config dev)) D2 k = Spec.T2 (C (config dev')) D2 k)
    by (intros k; unfold Spec.T2, Spec.dT; rewrite H5; reflexivity).
  unfold Spec.second_order, Spec.first_order in E1, E2.
  rewrite HT, ?HT2 in E1.
  destruct (compensation =? 0).
  - destruct (Spec.TEMP (C (config dev')) D2) as [T|]; cbn [obind] in E1, E2;
      [|discriminate].
    split_binds E1; try discriminate. split_binds E2; try discriminate.
    injection E1 as <-. injection E2 as <-. reflexivity.
  - destruct (Spec.TEMP (C (config dev')) D2) as [T|]; cbn [obind] in E1, E2;
      [|discriminate].
    destruct (T <? 2000).
    + destruct (Spec.OFFSET2 T) as [O2|]; cbn [obind] in E1, E2; [|discriminate].
      destruct (Spec.SENS2 T) as [S2|]; cbn [obind] in E1, E2; [|discriminate].
      rewrite ?HT2 in E1.
      destruct (float_to_int32 _) as [T'|]; cbn [obind] in E1, E2; [|discriminate].
      split_binds E1; try discriminate. split_binds E2; try discriminate.
      injection E1 as <-. injection E2 as <-. reflexivity.
    + cbn [obind] in E1, E2.
      split_binds E1; try discriminate. split_binds E2; try discriminate.
      injection E1 as <-. injection E2 as <-. reflexivity.
Qed.

Lemma RawDataProcess_temperature_path_witness :
  temperature {| temperature := -2129; pressure := 91910 |}
  = temperature {| temperature := -2129; pressure := -66935 |}.
Proof.
  apply (RawDataProcess_temperature_path
           (calibrated prom_datasheet)
           (set_config (calibrated prom_datasheet)
              {| osRate := MS5611_ULTRA_HIGH_RES; ct := 10;
                 C := C_set (C (config (calibrated prom_datasheet))) 1 (F32.of_Z 5) |})
           9085466 1 7500000 1);
    vm_compute; reflexivity.
Defined.

(** The standard-mode coefficients loaded from 16-bit words are zero or
    positive finite values, and C[5] is the float of 256 * word; checked on
    the 65536 words. *)
Lemma standard_coefficients_shape (w : Z) :
  0 <= w < 65536 ->
  nonneg_finite (F32.mul (F32.of_Z 32768) (F32.of_Z w)) = true
  /\ nonneg_finite (F32.mul (F32.of_Z 65536) (F32.of_Z w)) = true
  /\ nonneg_finite (F32.mul lit_3_90625Em3 (F32.of_Z w)) = true
  /\ nonneg_finite (F32.mul lit_7_8125Em3 (F32.of_Z w)) = true
  /\ nonneg_finite (F32.mul lit_1_1920928955Em7 (F32.of_Z w)) = true
  /\ F32.mul (F32.of_Z 256) (F32.of_Z w) = F32.of_Z (256 * w).
Proof.
  intros Hw.
  assert (Hall : all_bits 16
            (fun w =>
               nonneg_finite (F32.mul (F32.of_Z 32768) (F32.of_Z w))
               && nonneg_finite (F32.mul (F32.of_Z 65536) (F32.of_Z w))
               && nonneg_finite (F32.mul lit_3_90625Em3 (F32.of_Z w))
               && nonneg_finite (F32.mul lit_7_8125Em3 (F32.of_Z w))
               && nonneg_finite (F32.mul lit_1_1920928955Em7 (F32.of_Z w))
               && float_eqb (F32.mul (F32.of_Z 256) (F32.of_Z w)) (F32.of_Z (256 * w)))
            0 = true).
  { vm_compute. reflexivity. }
  pose proof (all_bits_spec _ 16 0 Hall w) as H.
  change (2 ^ Z.of_nat 16) with 65536 in H. specialize (H ltac:(lia)).
  cbv beta in H.
  repeat (apply andb_prop in H; destruct H as [H ?]).
  repeat split; try assumption. apply float_eqb_eq. assumption.
Qed.

Lemma F32_sub_self (x : float) :
  nonneg_finite x = true -> F32.sub x x = S754_zero false.
Proof.
  destruct x as [[|] | [|] | | [|] m e]; try discriminate; intros _; [reflexivity|].
  unfold F32.sub, SFsub. rewrite Z.sub_diag. reflexivity.
Qed.

Lemma F32_zero_mul (x : float) :
  nonneg_finite x = true -> F32.mul (S754_zero false) x = S754_zero false.
Proof. destruct x as [[|] | [|] | | [|] m e]; try discriminate; reflexivity. Qed.

Lemma F32_add_zero (x : float) :
  nonneg_finite x = true -> F32.add x (S754_zero false) = x.
Proof. destruct x as [[|] | [|] | | [|] m e]; try discriminate; reflexivity. Qed.

Lemma F32_of_Z_nonneg_finite (z : Z) :
  0 <= z < 2 ^ 24 -> nonneg_finite (F32.of_Z z) = true.
Proof.
  intros Hz. destruct (F32_of_raw z Hz) as [-> | (m & e & ->)]; reflexivity.
Qed.

(** X11: after [MS5611_Init], whatever the prior configuration and the PROM
    words, a temperature sample equal to the reference count 256 * word5
    (dT = 0) reads exactly 2000 (20.00 degrees C) for every pressure sample
    and either value of the flag, and the pressure is then computed from
    C[1] and C[2] alone. *)
Theorem reference_count_reads_2000
  (dev : MS5611_Device_t) (h : history) (D1 compensation : Z) :
  let b := bus dev in
  let h0 := h ++ [EvWrite 0x1E 0 (to_int8 (bus_write b h 0x1E 0)); EvDelay 20] in
  let dev' := snd (fst (MS5611_Init dev h)) in
  MS5611_RawDataProcess dev' D1 (256 * PROM_word b h0 5) compensation
  = match pressure_of D1 (C1 (C (config dev'))) (C2 (C (config dev'))) with
    | Some P => Some {| temperature := 2000; pressure := P |}
    | None => None
    end.
Proof.
  cbv zeta.
  assert (HC : C (config (snd (fst (MS5611_Init dev h))))
               = PROM_coefficients (base_constants 0) (bus dev)
                   (h ++ [EvWrite 0x1E 0 (to_int8 (bus_write (bus dev) h 0x1E 0));
                          EvDelay 20])).
  { rewrite Init_unfold, PROM_closed_form. cbn [fst snd set_config config C].
    rewrite InitConstants_coefficients. reflexivity. }
  set (h0 := h ++ _) in *.
  pose proof (fun k => standard_coefficients_shape _ (PROM_word_range (bus dev) h0 k)) as S.
  destruct (S 1) as (N1 & _). destruct (S 2) as (_ & N2 & _).
  destruct (S 3) as (_ & _ & N3 & _). destruct (S 4) as (_ & _ & _ & N4 & _).
  destruct (S 5) as (_ & _ & _ & _ & _ & E5).
  destruct (S 6) as (_ & _ & _ & _ & N6 & _). clear S.
  pose proof (PROM_word_range (bus dev) h0 5) as R5.
  assert (HdT : Spec.dT (C (config (snd (fst (MS5611_Init dev h)))))
                  (256 * PROM_word (bus dev) h0 5) = S754_zero false).
  { unfold Spec.dT. rewrite HC. cbn [PROM_coefficients base_constants Z.eqb C5].
    rewrite E5. apply F32_sub_self. apply F32_of_Z_nonneg_finite. lia. }
  assert (HT : Spec.TEMP (C (config (snd (fst (MS5611_Init dev h)))))
                 (256 * PROM_word (bus dev) h0 5) = Some 2000).
  { unfold Spec.TEMP. rewrite HdT, HC.
    cbn [PROM_coefficients base_constants Z.eqb C6].
    rewrite F32_zero_mul by exact N6. reflexivity. }
  assert (HO : Spec.OFFSET (C (config (snd (fst (MS5611_Init dev h)))))
                 (256 * PROM_word (bus dev) h0 5)
               = C2 (C (config (snd (fst (MS5611_Init dev h)))))).
  { unfold Spec.OFFSET. rewrite HdT, HC.
    cbn [PROM_coefficients base_constants Z.eqb C2 C4].
    rewrite F32_zero_mul by exact N4. apply F32_add_zero. exact N2. }
  assert (HS : Spec.SENS (C (config (snd (fst (MS5611_Init dev h)))))
                 (256 * PROM_word (bus dev) h0 5)
               = C1 (C (config (snd (fst (MS5611_Init dev h)))))).
  { unfold Spec.SENS. rewrite HdT, HC.
    cbn [PROM_coefficients base_constants Z.eqb C1 C3].
    rewrite F32_zero_mul by exact N3. apply F32_add_zero. exact N1. }
  rewrite RawDataProcess_cases.
  unfold Spec.second_order, Spec.first_order. rewrite HT, HO, HS.
  cbn [obind]. change (2000 <? 2000) with false. cbn iota.
  rewrite <- pressure_of_spec.
  destruct (compensation =? 0);
    destruct (pressure_of D1 _ _) as [P|]; reflexivity.
Qed.

Lemma float_to_int32_range (x : float) (T : Z) :
  float_to_int32 x = Some T -> INT32_MIN <= T <= INT32_MAX.
Proof.
  unfold float_to_int32, int32_checked, in_int32.
  destruct (float_trunc x) as [z|]; cbn [obind]; [|discriminate].
  destruct (_ && _) eqn:E; [|discriminate].
  intros H. injection H as <-.
  apply andb_prop in E. destruct E as [E1 E2].
  apply Z.leb_le in E1, E2. split; assumption.
Qed.

(** X12: with compensation on, the [int] square (TEMP - 2000)^2 of the
    second-order correction overflows exactly when the uncorrected TEMP is
    below -44340: there the transform has no defined result, while from
    -44340 up to 1999 both second-order terms are defined. *)
Theorem RawDataProcess_cold_overflow
  (dev : MS5611_Device_t) (D1 D2 compensation T : Z) :
  compensation <> 0 ->
  Spec.TEMP (C (config dev)) D2 = Some T ->
  (T < -44340 -> MS5611_RawDataProcess dev D1 D2 compensation = None)
  /\ (-44340 <= T < 2000 ->
      (exists o2, Spec.OFFSET2 T = Some o2) /\ (exists s2, Spec.SENS2 T = Some s2)).
Proof.
  intros Hc HT.
  pose proof (float_to_int32_range _ _ HT) as HR.
  unfold INT32_MIN, INT32_MAX in HR.
  split.
  - intros Hcold. rewrite RawDataProcess_cases.
    replace (compensation =? 0) with false by (symmetry; apply Z.eqb_neq; exact Hc).
    unfold Spec.second_order. rewrite HT. cbn [obind].
    replace (T <? 2000) with true by (symmetry; apply Z.ltb_lt; lia).
    assert (Hb : Spec.base T = None).
    { unfold Spec.base, int32_sub, int32_mul, int32_checked, in_int32,
        INT32_MIN, INT32_MAX.
      destruct ((-2147483648 <=? T - 2000) && (T - 2000 <=? 2147483647));
        cbn [obind]; [|reflexivity].
      replace ((T - 2000) * (T - 2000) <=? 2147483647) with false
        by (symmetry; apply Z.leb_gt; nia).
      rewrite andb_false_r. reflexivity. }
    unfold Spec.OFFSET2. rewrite Hb. reflexivity.
  - intros Hmild.
    assert (Hb : Spec.base T = Some ((T - 2000) * (T - 2000))).
    { unfold Spec.base, int32_sub, int32_mul, int32_checked, in_int32,
        INT32_MIN, INT32_MAX.
      replace ((-2147483648 <=? T - 2000) && (T - 2000 <=? 2147483647)) with true
        by (symmetry; apply andb_true_intro; split; apply Z.leb_le; lia).
      cbn [obind].
      replace ((-2147483648 <=? (T - 2000) * (T - 2000))
               && ((T - 2000) * (T - 2000) <=? 2147483647)) with true
        by (symmetry; apply andb_true_intro; split; apply Z.leb_le; nia).
      reflexivity. }
    assert (He : T < -1500 -> Spec.extra T = Some ((T + 1500) * (T + 1500))).
    { intros Hdeep.
      unfold Spec.extra, int32_add, int32_mul, int32_checked, in_int32,
        INT32_MIN, INT32_MAX.
      replace ((-2147483648 <=? T + 1500) && (T + 1500 <=? 2147483647)) with true
        by (symmetry; apply andb_true_intro; split; apply Z.leb_le; lia).
      cbn [obind].
      replace ((-2147483648 <=? (T + 1500) * (T + 1500))
               && ((T + 1500) * (T + 1500) <=? 2147483647)) with true
        by (symmetry; apply andb_true_intro; split; apply Z.leb_le; nia).
      reflexivity. }
    unfold Spec.OFFSET2, Spec.SENS2. rewrite Hb. cbn [obind].
    destruct (T <? -1500) eqn:Hd.
    + apply Z.ltb_lt in Hd. rewrite (He Hd). cbn [obind].
      split; eexists; reflexivity.
    + split; eexists; reflexivity.
Qed.

Lemma RawDataProcess_cold_overflow_witness :
  Spec.TEMP (C (config (calibrated prom_cold))) 0 = Some (-129068)
  /\ MS5611_RawDataProcess (calibrated prom_cold) 9085466 0 1 = None.
Proof.
  split; [vm_compute; reflexivity|].
  apply (proj1 (RawDataProcess_cold_overflow (calibrated prom_cold) 9085466 0 1
                  (-129068) ltac:(lia) ltac:(vm_compute; reflexivity))).
  lia.
Defined.

(** ** A cycle after initialisation *)

(** X13: on a handle that went through [MS5611_Init], whatever it was before,
    a measurement cycle that yields a result has appended to the bus
    history exactly: the pressure command 0x48, a 10 ms delay, a 3-byte
    read at 0x00, the temperature command 0x58, a 10 ms delay and a 3-byte
    read at 0x00. *)
Theorem cycle_after_Init
  (dev : MS5611_Device_t) (h h' hout : history) (st : Z) (t p : float) :
  MS5611_GetData (snd (fst (MS5611_Init dev h))) h' = Some (st, t, p, hout) ->
  exists evs,
    hout = h' ++ evs
    /\ map event_shape evs
       = [EvWrite 0x48 0 0; EvDelay 10; EvRead 0 3 0 [];
          EvWrite 0x58 0 0; EvDelay 10; EvRead 0 3 0 []].
Proof.
  intros H. rewrite GetData_events in H. cbv zeta in H.
  assert (Ho : osRate (config (snd (fst (MS5611_Init dev h)))) = MS5611_ULTRA_HIGH_RES)
    by (rewrite Init_unfold, PROM_closed_form; reflexivity).
  assert (Hct : ct (config (snd (fst (MS5611_Init dev h)))) = 10)
    by (rewrite Init_unfold, PROM_closed_form; reflexivity).
  rewrite Ho, Hct in H. cbn [osr_ord] in H.
  change (0x40 + 2 * 4) with 0x48 in H. change (0x50 + 2 * 4) with 0x58 in H.
  destruct (MS5611_RawDataProcess _ _ _ 1) as [data|]; [|discriminate].
  injection H as _ _ _ <-.
  eexists. split.
  - rewrite <- !app_assoc. cbn [app]. reflexivity.
  - reflexivity.
Qed.

Lemma cycle_after_Init_witness :
  exists evs,
    snd (MS5611_PROM (fresh sensor_datasheet) []) ++
    [EvWrite 0x48 0 0; EvDelay 10; EvRead 0 3 0 (be_bytes3 9085466);
     EvWrite 0x58 0 0; EvDelay 10; EvRead 0 3 0 (be_bytes3 8569150)]
    = snd (MS5611_PROM (fresh sensor_datasheet) []) ++ evs
    /\ map event_shape evs
       = [EvWrite 0x48 0 0; EvDelay 10; EvRead 0 3 0 [];
          EvWrite 0x58 0 0; EvDelay 10; EvRead 0 3 0 []].
Proof.
  eapply (cycle_after_Init (fresh sensor_datasheet) []
            (snd (MS5611_PROM (fresh sensor_datasheet) []))).
  vm_compute. reflexivity.
Defined.
